(** * qr_builder: a shallow embedding of the compositing and validation core

    The development follows the three modules of the package:
    [qr_builder.core] (validators, position calculator, renderer, compositor),
    [qr_builder.api] (the HTTP handlers and their error mapping) and
    [qr_builder.cli] (the batch-embed naming rule).

    Conventions.
    - A Python [int] is a [Z] (unbounded, [//] is [Z.div], which floors).
    - A Python [float] is a kernel binary64 float ([PrimFloat]).
    - A Python [str] is a [string] read as a sequence of code points below
      256; [len] is the number of code points, [lower] and [isspace] follow
      the Unicode tables on that range.
    - A call that may raise returns a [result]; [Raise e] carries the
      exception object.
    - The QR codec ([qrcode]) and the imaging library ([PIL]) are opaque
      collaborators: images are symbolic terms recording the operations
      applied to them, and decoding, symbol generation and encoding are
      parameters of the sections that need them. *)

From Stdlib Require Import ZArith List String Ascii Bool Lia.
From Stdlib Require Import Floats.
Import ListNotations.

Set Warnings "-inexact-float".

Local Open Scope string_scope.
Local Open Scope Z_scope.

(** ** Exceptions and results *)

(** The exception classes the package raises or catches.  [Raised cls msg]
    stands for an exception of a collaborator whose class [cls] derives from
    [Exception] but not from [ValueError]. *)
Inductive exn : Type :=
| ValueError (msg : string)
| FileNotFoundError (msg : string)
| OverflowError (msg : string)
| ImportError (msg : string)
| Raised (cls msg : string).

(** [isinstance(e, ValueError)], the test of [except ValueError]. *)
Definition is_ValueError (e : exn) : bool :=
  match e with ValueError _ => true | _ => false end.

(** [str(e)] for an exception built from one message. *)
Definition str_exn (e : exn) : string :=
  match e with
  | ValueError m | FileNotFoundError m | OverflowError m | ImportError m => m
  | Raised _ m => m
  end.

Inductive result (A : Type) : Type :=
| Ok (a : A)
| Raise (e : exn).

Arguments Ok {A} a.
Arguments Raise {A} e.

Definition bind {A B : Type} (r : result A) (k : A -> result B) : result B :=
  match r with
  | Ok a => k a
  | Raise e => Raise e
  end.

Notation "x <- c ;; k" := (bind c (fun x => k))
  (at level 61, c at next level, right associativity).
Notation "c ;;; k" := (bind c (fun _ => k))
  (at level 61, right associativity).

(** ** Python strings *)

Module PyStr.

Definition code (c : ascii) : Z := Z.of_N (N_of_ascii c).

(** [str.isspace] on one code point below 256: TAB..CR, FS..US, SPACE,
    NEL and NBSP. *)
Definition isspace (c : ascii) : bool :=
  let n := code c in
  ((9 <=? n) && (n <=? 13)) || ((28 <=? n) && (n <=? 32))
  || (n =? 133) || (n =? 160).

(** Upper-case letters with a lower-case partner 32 places on: A..Z and,
    in the Latin-1 block, U+00C0..U+00DE without the multiplication sign. *)
Definition isupper (c : ascii) : bool :=
  let n := code c in
  ((65 <=? n) && (n <=? 90))
  || ((192 <=? n) && (n <=? 222) && negb (n =? 215)).

Definition lower_char (c : ascii) : ascii :=
  if isupper c then ascii_of_N (N_of_ascii c + 32) else c.

(** [s.lower()] *)
Fixpoint lower (s : string) : string :=
  match s with
  | EmptyString => EmptyString
  | String c t => String (lower_char c) (lower t)
  end.

Definition is_empty (s : string) : bool :=
  match s with EmptyString => true | String _ _ => false end.

(** [s.lstrip()] and [s.rstrip()] with no argument: whitespace is removed
    from one end. *)
Fixpoint lstrip (s : string) : string :=
  match s with
  | EmptyString => EmptyString
  | String c t => if isspace c then lstrip t else s
  end.

Fixpoint rstrip (s : string) : string :=
  match s with
  | EmptyString => EmptyString
  | String c t =>
      let t' := rstrip t in
      if isspace c && is_empty t' then EmptyString else String c t'
  end.

(** [s.strip()] *)
Definition strip (s : string) : string := rstrip (lstrip s).

(** [len(s)] *)
Definition len (s : string) : Z := Z.of_nat (String.length s).

(** [sub in s] for a one-character [sub]. *)
Fixpoint contains_char (c : ascii) (s : string) : bool :=
  match s with
  | EmptyString => false
  | String d t => Ascii.eqb c d || contains_char c t
  end.

End PyStr.

(** ** qr_builder.core: constants and validators *)

Definition MAX_DATA_LENGTH : Z := 4296.
Definition MAX_QR_SIZE : Z := 4000.
Definition MIN_QR_SIZE : Z := 21.
Definition VALID_POSITIONS : list string :=
  ["center"; "top-left"; "top-right"; "bottom-left"; "bottom-right"].

Definition validate_data (data : string) : result unit :=
  if PyStr.is_empty data || PyStr.is_empty (PyStr.strip data) then
    Raise (ValueError "Data cannot be empty.")
  else if PyStr.len data >? MAX_DATA_LENGTH then
    Raise (ValueError "Data exceeds maximum length of 4296 characters.")
  else Ok tt.

Definition validate_size (size : Z) : result unit :=
  if negb ((MIN_QR_SIZE <=? size) && (size <=? MAX_QR_SIZE)) then
    Raise (ValueError "Size must be between 21 and 4000 pixels.")
  else Ok tt.

(** ** qr_builder.core: the position calculator *)

Definition calculate_position
    (bg_w bg_h qr_size : Z) (position : string) (margin : Z)
    : result (Z * Z) :=
  let position := PyStr.lower position in
  if (position =? "center")%string then
    Ok ((bg_w - qr_size) / 2, (bg_h - qr_size) / 2)
  else if (position =? "bottom-right")%string then
    Ok (bg_w - qr_size - margin, bg_h - qr_size - margin)
  else if (position =? "bottom-left")%string then
    Ok (margin, bg_h - qr_size - margin)
  else if (position =? "top-right")%string then
    Ok (bg_w - qr_size - margin, margin)
  else if (position =? "top-left")%string then
    Ok (margin, margin)
  else
    Raise (ValueError
      ("Unsupported position '" ++ position ++ "'. "
       ++ "Use one of: center, top-left, top-right, bottom-left, bottom-right.")).

(** ** Python numbers *)

Module PyNum.

(** [float(n)] for an [int]: the nearest binary64 value, ties to even.
    CPython refuses an [int] that rounds past the largest finite float. *)
Definition float_of_int (n : Z) : result float :=
  let f := SF2Prim (binary_normalize prec emax n 0 false) in
  if PrimFloat.is_infinity f then
    Raise (OverflowError "int too large to convert to float")
  else Ok f.

(** [n * x] for an [int] [n] and a [float] [x]. *)
Definition mul_int_float (n : Z) (x : float) : result float :=
  f <- float_of_int n ;; Ok (f * x)%float.

(** [int(x)] for a [float]: truncation toward zero. *)
Definition int_of_float (x : float) : result Z :=
  match Prim2SF x with
  | S754_zero _ => Ok 0
  | S754_finite s m e =>
      let a := if 0 <=? e then Z.pos m * 2 ^ e else Z.pos m / 2 ^ (- e) in
      Ok (if s then - a else a)
  | S754_infinity _ =>
      Raise (OverflowError "cannot convert float infinity to integer")
  | S754_nan =>
      Raise (ValueError "cannot convert float NaN to integer")
  end.

(** [int(n * x)] *)
Definition int_mul (n : Z) (x : float) : result Z :=
  f <- mul_int_float n x ;; int_of_float f.

End PyNum.

(** ** Images

    Pixels are never inspected by the package, so an image is the term of
    the imaging operations that built it.  [size] and [mode] are the two
    attributes the package reads. *)

(** A pixel format, by its name in the imaging library: ["RGBA"], ["RGB"],
    ["L"], ... *)
Definition mode : Type := string.

Inductive Image : Type :=
| Decoded (raw : list Byte.byte) (w h : Z) (m : mode)
| Symbol (data : string) (border : Z) (fill_color back_color : string)
         (w h : Z) (m : mode)
| Convert (m : mode) (img : Image)
| Resize (w h : Z) (img : Image)
| Rectangle (img : Image) (x0 y0 x1 y1 : Z) (fill : string)
| Paste (bg fg : Image) (x y : Z) (mask : Image).

(** [img.size] *)
Fixpoint size (img : Image) : Z * Z :=
  match img with
  | Decoded _ w h _ => (w, h)
  | Symbol _ _ _ _ w h _ => (w, h)
  | Convert _ i => size i
  | Resize w h _ => (w, h)
  | Rectangle i _ _ _ _ _ => size i
  | Paste bg _ _ _ _ => size bg
  end.

(** [img.mode] *)
Fixpoint image_mode (img : Image) : mode :=
  match img with
  | Decoded _ _ _ m => m
  | Symbol _ _ _ _ _ _ m => m
  | Convert m _ => m
  | Resize _ _ i => image_mode i
  | Rectangle i _ _ _ _ _ => image_mode i
  | Paste bg _ _ _ _ => image_mode bg
  end.

(** The image is in the RGBA format: three colour channels and alpha. *)
Definition has_alpha (img : Image) : bool :=
  (image_mode img =? "RGBA")%string.

(** Where [img.save] writes: an explicit format, or a path whose suffix
    selects the format. *)
Inductive save_target : Type :=
| ToFormat (format : string)
| ToPath (path : string).

(** The collaborators: [qr_make_image data border fill back] is
    [QRCode(version=None, error_correction=H, box_size=10, border)] followed
    by [add_data], [make(fit=True)] and [make_image]; [image_open] is
    [Image.open] on file content, together with the loading of the pixels
    that the [convert] chained to it starts; [image_encode] is the encoder
    behind [Image.save]; [getcolor color mode] is [ImageColor.getcolor], by which
    a drawing call turns the colour it is given into the ink of the image
    it draws on.  Each may raise. *)
Class Collaborators : Type := {
  qr_make_image : string -> Z -> string -> string -> result Image;
  image_open : list Byte.byte -> result Image;
  image_encode : Image -> save_target -> result (list Byte.byte);
  getcolor : string -> mode -> result (list Z)
}.

(** A file system: the content of each path that exists. *)
Definition filesystem : Type := string -> option (list Byte.byte).

Definition fs_exists (fs : filesystem) (p : string) : bool :=
  match fs p with Some _ => true | None => false end.

Definition fs_write (fs : filesystem) (p : string) (b : list Byte.byte)
  : filesystem :=
  fun q => if (q =? p)%string then Some b else fs q.

Definition fs_read (fs : filesystem) (p : string) : result (list Byte.byte) :=
  match fs p with
  | Some b => Ok b
  | None => Raise (FileNotFoundError ("No such file or directory: " ++ p))
  end.

(** ** qr_builder.core: renderer and compositor *)

Section Core.

Context {C : Collaborators}.

(** Defaults of [generate_qr]'s keyword arguments. *)
Definition default_border : Z := 4.

Definition generate_qr
    (data : string) (qr_size border : Z) (fill_color back_color : string)
    : result Image :=
  validate_data data ;;;
  validate_size qr_size ;;;
  img <- qr_make_image data border fill_color back_color ;;
  let img := Convert "RGBA" img in
  let img := Resize qr_size qr_size img in
  Ok img.

Definition embed_qr_in_image
    (fs : filesystem) (background_image_path data output_path : string)
    (qr_scale : float) (position : string) (margin : Z)
    (fill_color back_color : string)
    : result (string * filesystem) :=
  let bg_path := background_image_path in
  (if negb (fs_exists fs bg_path) then
     Raise (FileNotFoundError ("Background image not found: " ++ bg_path))
   else Ok tt) ;;;
  raw <- fs_read fs bg_path ;;
  bg <- image_open raw ;;
  let bg := Convert "RGBA" bg in
  let '(bg_w, bg_h) := size bg in
  (if negb ((0 <? qr_scale)%float && (qr_scale <=? 1)%float) then
     Raise (ValueError "qr_scale must be between 0 and 1.")
   else Ok tt) ;;;
  qr_size <- PyNum.int_mul bg_w qr_scale ;;
  qr_img <- generate_qr data qr_size default_border fill_color back_color ;;
  xy <- calculate_position bg_w bg_h qr_size position margin ;;
  let '(x, y) := xy in
  let bg := Paste bg qr_img x y qr_img in
  out <- image_encode bg (ToPath output_path) ;;
  Ok (output_path, fs_write fs output_path out).

Definition generate_qr_only
    (fs : filesystem) (data output_path : string) (size : Z)
    (fill_color back_color : string)
    : result (string * filesystem) :=
  img <- generate_qr data size default_border fill_color back_color ;;
  out <- image_encode img (ToPath output_path) ;;
  Ok (output_path, fs_write fs output_path out).

Definition generate_qr_with_logo
    (fs : filesystem) (data logo_path output_path : string) (size : Z)
    (logo_scale : float) (fill_color back_color : string)
    : result (string * filesystem) :=
  (if negb (fs_exists fs logo_path) then
     Raise (FileNotFoundError ("Logo image not found: " ++ logo_path))
   else Ok tt) ;;;
  (if negb ((0.1 <=? logo_scale)%float && (logo_scale <=? 0.4)%float) then
     Raise (ValueError
       "logo_scale should be between 0.1 and 0.4 for reliable scanning.")
   else Ok tt) ;;;
  qr_img <- generate_qr data size default_border fill_color back_color ;;
  raw <- fs_read fs logo_path ;;
  logo <- image_open raw ;;
  let logo := Convert "RGBA" logo in
  logo_size <- PyNum.int_mul size logo_scale ;;
  let logo := Resize logo_size logo_size logo in
  let pos_x := (size - logo_size) / 2 in
  let pos_y := (size - logo_size) / 2 in
  let box_padding := 10 in
  let box_size := logo_size + box_padding * 2 in
  let box_pos := ((size - box_size) / 2, (size - box_size) / 2) in
  getcolor back_color (image_mode qr_img) ;;;
  let qr_img :=
    Rectangle qr_img (fst box_pos) (snd box_pos)
              (fst box_pos + box_size) (snd box_pos + box_size) back_color in
  let qr_img := Paste qr_img logo pos_x pos_y logo in
  out <- image_encode qr_img (ToPath output_path) ;;
  Ok (output_path, fs_write fs output_path out).

End Core.

(** ** qr_builder.core: the artistic mode *)

(** The two attributes of a [pathlib] path the package reads, on POSIX
    paths: a path is its root and its components, where empty components
    and single dots are dropped. *)
Module PurePosixPath.

Fixpoint split (s : string) : list string :=
  match s with
  | EmptyString => [EmptyString]
  | String c t =>
      if Ascii.eqb c "/" then EmptyString :: split t
      else match split t with
           | h :: r => String c h :: r
           | [] => [String c EmptyString]
           end
  end.

Definition parts (p : string) : list string :=
  filter (fun c => negb (PyStr.is_empty c || (c =? ".")%string)) (split p).

(** Two leading slashes, and no more, are a root of their own. *)
Definition root (p : string) : string :=
  match p with
  | String "/" (String "/" (String "/" _)) => "/"
  | String "/" (String "/" _) => "//"
  | String "/" _ => "/"
  | _ => EmptyString
  end.

(** [str(path)] *)
Definition to_str (r : string) (components : list string) : string :=
  match components with
  | [] => if PyStr.is_empty r then "." else r
  | _ => r ++ String.concat "/" components
  end.

(** [path.name] *)
Definition name (p : string) : string := last (parts p) EmptyString.

(** [str(path.parent)] *)
Definition parent (p : string) : string :=
  to_str (root p) (removelast (parts p)).

End PurePosixPath.

(** [amzqr_run fs words version level picture colorized contrast
    brightness save_name save_dir] is [amzqr.run], which checks its
    arguments, blends the picture into the symbol and saves the result as
    [save_name] under [save_dir]. *)
Class ArtisticCodec : Type := {
  amzqr_run : filesystem -> string -> Z -> string -> string -> bool ->
              float -> float -> string -> string -> result filesystem
}.

Section Artistic.

Context {A : ArtisticCodec}.

Definition generate_artistic_qr
    (fs : filesystem) (data image_path output_path : string)
    (colorized : bool) (contrast brightness : float) (version : Z)
    : result (string * filesystem) :=
  (if negb (fs_exists fs image_path) then
     Raise (FileNotFoundError ("Image not found: " ++ image_path))
   else Ok tt) ;;;
  let save_dir :=
    let d := PurePosixPath.parent output_path in
    if PyStr.is_empty d then "." else d in
  let save_name := PurePosixPath.name output_path in
  fs <- amzqr_run fs data version "H" image_path colorized contrast
                  brightness save_name save_dir ;;
  Ok (output_path, fs).

End Artistic.

(** ** qr_builder.api: the HTTP handlers *)

(** An uploaded file: its client-side name, when one was sent, and its
    content. *)
Record UploadFile : Type := {
  filename : option string;
  content : list Byte.byte
}.

Inductive body : Type :=
| Png (bytes : list Byte.byte)
| Zip (entries : list (string * list Byte.byte)).

(** What a handler hands to the framework: a streamed body, an
    [HTTPException] with its status code and detail, or an exception that
    escapes the handler. *)
Inductive response : Type :=
| StreamingResponse (b : body)
| HTTPException (status_code : Z) (detail : string)
| Unhandled (e : exn).

(** [a.rsplit(sep, 1)]: the string cut at its last [sep], or the string
    alone when there is none. *)
Fixpoint rsplit1 (sep : ascii) (s : string) : list string :=
  match s with
  | EmptyString => [EmptyString]
  | String c t =>
      match rsplit1 sep t with
      | [b; e] => [String c b; e]
      | _ => if Ascii.eqb c sep then [EmptyString; t] else [s]
      end
  end.

(** [file.filename or "image.png"] followed by the naming rule of
    [/batch/embed]. *)
Definition batch_embed_out_name (file : UploadFile) : result string :=
  let name :=
    match filename file with
    | Some n => if PyStr.is_empty n then "image.png" else n
    | None => "image.png"
    end in
  if PyStr.contains_char "." name then
    match rsplit1 "." name with
    | [base; _] => Ok (base ++ "_qr.png")
    | _ => Raise (ValueError "not enough values to unpack (expected 2, got 1)")
    end
  else Ok (name ++ "_qr.png").

(** The naming rule of [/batch/artistic]: the same cut, another suffix. *)
Definition batch_artistic_out_name (file : UploadFile) : result string :=
  let name :=
    match filename file with
    | Some n => if PyStr.is_empty n then "image.png" else n
    | None => "image.png"
    end in
  if PyStr.contains_char "." name then
    match rsplit1 "." name with
    | [base; _] => Ok (base ++ "_artistic.png")
    | _ => Raise (ValueError "not enough values to unpack (expected 2, got 1)")
    end
  else Ok (name ++ "_artistic.png").

Definition fs_unlink (fs : filesystem) (p : string) : filesystem :=
  fun q => if (q =? p)%string then None else fs q.

Section Api.

Context {C : Collaborators}.

(** POST /qr.  The PNG encoding happens after the [try] statement. *)
Definition create_qr (data : string) (size : Z)
    (fill_color back_color : string) : response :=
  match generate_qr data size default_border fill_color back_color with
  | Raise exc => HTTPException 400 (str_exn exc)
  | Ok img =>
      match image_encode img (ToFormat "PNG") with
      | Ok buf => StreamingResponse (Png buf)
      | Raise e => Unhandled e
      end
  end.

(** POST /qr/logo.  [tmp_name] and [out_name] are the names the two
    [NamedTemporaryFile] calls picked. *)
Definition create_qr_with_logo
    (fs : filesystem) (tmp_name out_name : string)
    (logo : UploadFile) (data : string) (size : Z) (logo_scale : float)
    (fill_color back_color : string) : response * filesystem :=
  let fs := fs_write fs tmp_name (content logo) in
  let tmp_path := tmp_name in
  let fs := fs_write fs out_name [] in
  let out_path := out_name in
  match generate_qr_with_logo fs data tmp_path out_path size logo_scale
                              fill_color back_color with
  | Ok (_, fs) =>
      match fs_read fs out_path with
      | Ok result =>
          let fs := fs_unlink fs tmp_path in
          let fs := fs_unlink fs out_path in
          (StreamingResponse (Png result), fs)
      | Raise exc =>
          (if is_ValueError exc then HTTPException 400 (str_exn exc)
           else HTTPException 500 (str_exn exc), fs)
      end
  | Raise exc =>
      (if is_ValueError exc then HTTPException 400 (str_exn exc)
       else HTTPException 500 (str_exn exc), fs)
  end.

(** The [try] block of POST /embed. *)
Definition embed_qr_try
    (background : UploadFile) (data : string) (scale : float)
    (position : string) (margin : Z) (fill_color back_color : string)
    : result (list Byte.byte) :=
  let raw := content background in
  bg <- image_open raw ;;
  let bg := Convert "RGBA" bg in
  let '(bg_w, bg_h) := size bg in
  (if negb ((0 <? scale)%float && (scale <=? 1)%float) then
     Raise (ValueError "scale must be between 0 and 1.")
   else Ok tt) ;;;
  qr_size <- PyNum.int_mul bg_w scale ;;
  qr_img <- generate_qr data qr_size default_border fill_color back_color ;;
  xy <- calculate_position bg_w bg_h qr_size position margin ;;
  let '(x, y) := xy in
  let bg := Paste bg qr_img x y qr_img in
  image_encode bg (ToFormat "PNG").

(** POST /embed *)
Definition embed_qr
    (background : UploadFile) (data : string) (scale : float)
    (position : string) (margin : Z) (fill_color back_color : string)
    : response :=
  match embed_qr_try background data scale position margin
                     fill_color back_color with
  | Ok out_buf => StreamingResponse (Png out_buf)
  | Raise ve =>
      if is_ValueError ve then HTTPException 400 (str_exn ve)
      else HTTPException 500 "Internal server error"
  end.

(** One turn of the [for file in backgrounds] loop of POST /batch/embed:
    the archive entry written by [zf.writestr]. *)
Definition batch_embed_item
    (file : UploadFile) (data : string) (scale : float)
    (position : string) (margin : Z) (fill_color back_color : string)
    : result (string * list Byte.byte) :=
  let raw := content file in
  bg <- image_open raw ;;
  let bg := Convert "RGBA" bg in
  let '(bg_w, bg_h) := size bg in
  (if negb ((0 <? scale)%float && (scale <=? 1)%float) then
     Raise (ValueError "scale must be between 0 and 1.")
   else Ok tt) ;;;
  qr_size <- PyNum.int_mul bg_w scale ;;
  qr_img <- generate_qr data qr_size default_border fill_color back_color ;;
  xy <- calculate_position bg_w bg_h qr_size position margin ;;
  let '(x, y) := xy in
  let bg := Paste bg qr_img x y qr_img in
  out_img_buf <- image_encode bg (ToFormat "PNG") ;;
  out_name <- batch_embed_out_name file ;;
  Ok (out_name, out_img_buf).

(** The loop, with the open archive [zf] as the entries written so far. *)
Fixpoint batch_embed_loop
    (backgrounds : list UploadFile) (zf : list (string * list Byte.byte))
    (data : string) (scale : float) (position : string) (margin : Z)
    (fill_color back_color : string)
    : result (list (string * list Byte.byte)) :=
  match backgrounds with
  | [] => Ok zf
  | file :: rest =>
      entry <- batch_embed_item file data scale position margin
                                fill_color back_color ;;
      batch_embed_loop rest (zf ++ [entry]) data scale position margin
                       fill_color back_color
  end.

(** POST /batch/embed *)
Definition batch_embed_qr
    (backgrounds : list UploadFile) (data : string) (scale : float)
    (position : string) (margin : Z) (fill_color back_color : string)
    : response :=
  match batch_embed_loop backgrounds [] data scale position margin
                         fill_color back_color with
  | Ok zip_buf => StreamingResponse (Zip zip_buf)
  | Raise ve =>
      if is_ValueError ve then HTTPException 400 (str_exn ve)
      else HTTPException 500 "Internal server error"
  end.

End Api.

(** The handlers whose [try] block calls into code outside this
    development take the outcome of that block as their argument; their
    [except] clauses are the ones of the source. *)

(** POST /qr/text *)
Definition create_qr_with_text_endpoint (try_block : result (list Byte.byte))
  : response :=
  match try_block with
  | Ok result => StreamingResponse (Png result)
  | Raise exc =>
      if is_ValueError exc then HTTPException 400 (str_exn exc)
      else HTTPException 500 (str_exn exc)
  end.

(** POST /qr/artistic *)
Definition create_artistic_qr (try_block : result (list Byte.byte))
  : response :=
  match try_block with
  | Ok result => StreamingResponse (Png result)
  | Raise exc => HTTPException 500 (str_exn exc)
  end.

(** The members of [PresetEnum] and their values. *)
Inductive PresetEnum : Type := small | medium | large | hd.

Definition PresetEnum_value (p : PresetEnum) : string :=
  match p with
  | small => "small"
  | medium => "medium"
  | large => "large"
  | hd => "hd"
  end.

(** The [try] block of POST /qr/artistic.  [ARTISTIC_PRESETS] is the table
    the handler imports from the core module, taken as a parameter: a
    preset name gives a version, a contrast and a brightness.  [tmp_name]
    and [out_name] are the names the two [NamedTemporaryFile] calls
    picked.  The block yields the bytes read back; the two files it
    removes at its end are not part of that result. *)
Section ArtisticHandler.

Context {A : ArtisticCodec}.

Variable ARTISTIC_PRESETS : string -> option (Z * float * float).

Definition create_artistic_qr_try
    (fs : filesystem) (tmp_name out_name : string)
    (image : UploadFile) (data : string) (preset : option PresetEnum)
    (version : Z) (contrast brightness : float) (colorized : bool)
    : result (list Byte.byte) :=
  params <-
    match preset with
    | Some preset =>
        match ARTISTIC_PRESETS (PresetEnum_value preset) with
        | Some p => Ok p
        | None =>
            Raise (Raised "KeyError" ("'" ++ PresetEnum_value preset ++ "'"))
        end
    | None => Ok (version, contrast, brightness)
    end ;;
  let '(version, contrast, brightness) := params in
  let fs := fs_write fs tmp_name (content image) in
  let tmp_path := tmp_name in
  let fs := fs_write fs out_name [] in
  let out_path := out_name in
  r <- generate_artistic_qr fs data tmp_path out_path colorized contrast
                            brightness version ;;
  result <- fs_read (snd r) out_path ;;
  Ok result.

End ArtisticHandler.

(** POST /qr/qart *)
Definition create_qart (try_block : result (list Byte.byte)) : response :=
  match try_block with
  | Ok result => StreamingResponse (Png result)
  | Raise exc => HTTPException 500 (str_exn exc)
  end.

(** POST /batch/artistic *)
Definition batch_artistic_qr
    (try_block : result (list (string * list Byte.byte))) : response :=
  match try_block with
  | Ok zip_buf => StreamingResponse (Zip zip_buf)
  | Raise _ => HTTPException 500 "Internal server error"
  end.

(** ** qr_builder.cli: naming of batch-embed outputs *)

Module PosixPath.

(** [s.rfind(c)]: the index of the last [c], or -1. *)
Fixpoint rfind_from (c : ascii) (s : string) (i : Z) (last : Z) : Z :=
  match s with
  | EmptyString => last
  | String d t => rfind_from c t (i + 1) (if Ascii.eqb c d then i else last)
  end.

Definition rfind (c : ascii) (s : string) : Z := rfind_from c s 0 (-1).

(** [s[:i]] and [s[i:]] for [0 <= i]. *)
Definition slice_to (s : string) (i : Z) : string :=
  substring 0 (Z.to_nat i) s.

Definition slice_from (s : string) (i : Z) : string :=
  substring (Z.to_nat i) (String.length s - Z.to_nat i) s.

(** [os.path.basename] *)
Definition basename (p : string) : string :=
  slice_from p (rfind "/" p + 1).

(** Whether some index in [[lo, hi)] holds a character other than the
    dot: the search the loop of [genericpath._splitext] performs. *)
Fixpoint has_non_dot (s : string) (i lo hi : Z) : bool :=
  match s with
  | EmptyString => false
  | String d t =>
      ((lo <=? i) && (i <? hi) && negb (Ascii.eqb d "."))
      || has_non_dot t (i + 1) lo hi
  end.

(** [os.path.splitext]: the extension starts at the last dot of the last
    path component, leading dots of that component apart. *)
Definition splitext (p : string) : string * string :=
  let sepIndex := rfind "/" p in
  let dotIndex := rfind "." p in
  if (dotIndex >? sepIndex) && has_non_dot p 0 (sepIndex + 1) dotIndex then
    (slice_to p dotIndex, slice_from p dotIndex)
  else (p, EmptyString).

End PosixPath.

(** The name [main] gives the output of one matched input in the
    batch-embed branch. *)
Definition cli_batch_out_name (in_path : string) : string :=
  let name := PosixPath.basename in_path in
  let '(stem, ext) := PosixPath.splitext name in
  stem ++ "_qr" ++ (if PyStr.is_empty ext then ".png" else ext).

(** The batch-embed branch of [main].  [matched] is the list [glob] returned
    for the pattern, [path_join] is the [/] of [pathlib] that builds
    [output_dir / out_name].  No exception is caught: the loop stops at the
    first input that fails and the files written so far stay where they
    are, so the result is the file system reached and the outcome. *)
Section Cli.

Context {C : Collaborators}.

Variable path_join : string -> string -> string.

Fixpoint main_batch_embed
    (fs : filesystem) (matched : list string) (data output_dir : string)
    (scale : float) (position : string) (margin : Z)
    (fill_color back_color : string)
    : filesystem * result unit :=
  match matched with
  | [] => (fs, Ok tt)
  | in_path :: rest =>
      let out_name := cli_batch_out_name in_path in
      let out_path := path_join output_dir out_name in
      match embed_qr_in_image fs in_path data out_path scale position margin
                              fill_color back_color with
      | Ok (_, fs') =>
          main_batch_embed fs' rest data output_dir scale position margin
                           fill_color back_color
      | Raise e => (fs, Raise e)
      end
  end.

End Cli.

(** ** Module loading: [from .core import ...]

    A module namespace is the list of names bound at its top level.  The
    import statement looks the requested names up in order and raises
    [ImportError] at the first one that is not bound ([qr_builder.core] is a
    plain module, so there is no submodule to fall back on). *)

Definition core_namespace : list string :=
  [ "annotations"; "logging"; "Path"; "Literal"; "qrcode"; "Image"; "logger";
    "MAX_DATA_LENGTH"; "MAX_QR_SIZE"; "MIN_QR_SIZE"; "VALID_POSITIONS";
    "validate_data"; "validate_size"; "generate_qr"; "calculate_position";
    "embed_qr_in_image"; "generate_qr_only"; "generate_artistic_qr";
    "generate_qr_with_logo" ].

Definition api_imports_from_core : list string :=
  [ "generate_qr"; "calculate_position"; "generate_qr_with_logo";
    "generate_qr_with_text"; "generate_artistic_qr"; "generate_qart";
    "QRStyle"; "ARTISTIC_PRESETS" ].

Definition cli_imports_from_core : list string :=
  [ "generate_qr_only"; "embed_qr_in_image"; "generate_qr_with_logo";
    "generate_artistic_qr" ].

Definition is_bound (namespace : list string) (name : string) : bool :=
  existsb (String.eqb name) namespace.

Fixpoint import_from (module : string) (namespace names : list string)
  : result unit :=
  match names with
  | [] => Ok tt
  | name :: rest =>
      if is_bound namespace name then import_from module namespace rest
      else Raise (ImportError
             ("cannot import name '" ++ name ++ "' from '" ++ module ++ "'"))
  end.

(** Loading [qr_builder.api] up to its import of the core module; the
    routes are registered by the statements after it. *)
Definition load_api : result unit :=
  import_from "qr_builder.core" core_namespace api_imports_from_core.

Definition load_cli : result unit :=
  import_from "qr_builder.core" core_namespace cli_imports_from_core.

(** ** Stand-ins for the collaborators

    A deterministic instance on which the model runs: a background file is
    four bytes giving its width and height, the codec draws a version-1
    symbol with 10-pixel modules and refuses data beyond the byte capacity
    of version 40 at error-correction level H, the colour parser knows a
    few names, and the encoder writes the size header of the image. *)

Module Stub.

Definition byte_val (b : Byte.byte) : Z := Z.of_N (Byte.to_N b).

Definition byte_of (n : Z) : Byte.byte :=
  match Byte.of_N (Z.to_N (n mod 256)) with
  | Some b => b
  | None => Byte.x00
  end.

Definition header (w h : Z) : list Byte.byte :=
  [byte_of (w / 256); byte_of w; byte_of (h / 256); byte_of h].

Definition open (raw : list Byte.byte) : result Image :=
  match raw with
  | [a; b; c; d] =>
      Ok (Decoded raw (256 * byte_val a + byte_val b)
                      (256 * byte_val c + byte_val d) "RGB")
  | _ => Raise (Raised "UnidentifiedImageError" "cannot identify image file")
  end.

(** The colours the stand-ins know, as RGBA inks. *)
Definition ink (color : string) : option (list Z) :=
  if (color =? "black")%string then Some [0; 0; 0; 255]
  else if (color =? "white")%string then Some [255; 255; 255; 255]
  else if (color =? "red")%string then Some [255; 0; 0; 255]
  else if (color =? "navy")%string then Some [0; 0; 128; 255]
  else None.

Definition parse_color (color : string) (_ : mode) : result (list Z) :=
  match ink color with
  | Some c => Ok c
  | None => Raise (ValueError ("unknown color specifier: '" ++ color ++ "'"))
  end.

(** Data beyond the capacity of version 40 makes the codec ask for
    version 41, which it refuses with a [ValueError]; the background may be
    ["transparent"], which gives an RGBA symbol, and the other colours go
    through the colour parser, the background first. *)
Definition make_image (data : string) (border : Z)
    (fill_color back_color : string) : result Image :=
  if PyStr.len data >? 1273 then
    Raise (ValueError "Invalid version (was 41, expected 1 to 40)")
  else
    let side := (21 + 2 * border) * 10 in
    if (back_color =? "transparent")%string then
      parse_color fill_color "RGBA" ;;;
      Ok (Symbol data border fill_color back_color side side "RGBA")
    else
      parse_color back_color "RGB" ;;;
      parse_color fill_color "RGB" ;;;
      Ok (Symbol data border fill_color back_color side side "RGB").

Definition encode (img : Image) (_ : save_target)
  : result (list Byte.byte) :=
  Ok (header (fst (size img)) (snd (size img))).

(** The artistic codec checks the version it is asked for and the
    picture, and writes a symbol of that version with 9-pixel modules. *)
Definition artistic_run (fs : filesystem) (words : string) (version : Z)
    (level picture : string) (colorized : bool) (contrast brightness : float)
    (save_name save_dir : string) : result filesystem :=
  if negb ((1 <=? version) && (version <=? 40)) then
    Raise (ValueError
      "Wrong version! Please choose a int-type value from 1 to 40!")
  else if negb (fs_exists fs picture) then
    Raise (ValueError "Wrong picture! Input a filename that exists and be tailed with one of {'.jpg', '.png', '.bmp', '.gif'}!")
  else
    let side := (17 + 4 * version + 8) * 9 in
    Ok (fs_write fs (save_dir ++ "/" ++ save_name) (header side side)).

Definition artistic_codec : ArtisticCodec :=
  {| amzqr_run := artistic_run |}.

(** The table of presets the description of the API gives, with neutral
    contrast and brightness. *)
Definition presets (name : string) : option (Z * float * float) :=
  if (name =? "small")%string then Some (5, 1%float, 1%float)
  else if (name =? "medium")%string then Some (10, 1%float, 1%float)
  else if (name =? "large")%string then Some (15, 1%float, 1%float)
  else if (name =? "hd")%string then Some (20, 1%float, 1%float)
  else None.

Definition collaborators : Collaborators :=
  {| qr_make_image := make_image;
     image_open := open;
     image_encode := encode;
     getcolor := parse_color |}.

(** [n] copies of one character. *)
Definition str_repeat (n : nat) (c : ascii) : string :=
  string_of_list_ascii (repeat c n).

(** A file system holding one 64 x 64 logo. *)
Definition logo_fs : filesystem :=
  fun p => if (p =? "logo.png")%string then Some (header 64 64) else None.

(** A file system holding one 400 x 300 background. *)
Definition bg_fs : filesystem :=
  fun p => if (p =? "bg.png")%string then Some (header 400 300) else None.

Definition upload (name : string) (w h : Z) : UploadFile :=
  {| filename := Some name; content := header w h |}.

End Stub.

(** ** Predicates of the specification *)

(** Every character of [s] is whitespace (the empty string included). *)
Definition whitespace_only (s : string) : Prop :=
  forall c, In c (list_ascii_of_string s) -> PyStr.isspace c = true.

(** The data the validator must refuse: empty, whitespace-only, or longer
    than 4296 characters. *)
Definition data_rejected (data : string) : Prop :=
  data = EmptyString \/ whitespace_only data \/ 4296 < PyStr.len data.

(** Two characters that are equal, or the two cases of one ASCII letter. *)
Definition is_ascii_letter (c : ascii) : bool :=
  let n := PyStr.code c in
  ((65 <=? n) && (n <=? 90)) || ((97 <=? n) && (n <=? 122)).

Definition same_letter (c d : ascii) : bool :=
  Ascii.eqb c d
  || (is_ascii_letter c && is_ascii_letter d
      && (Z.abs (PyStr.code c - PyStr.code d) =? 32)).

(** [s] is a casing variant of [a]: same length, same letters up to case. *)
Fixpoint casing_variant (s a : string) : bool :=
  match s, a with
  | EmptyString, EmptyString => true
  | String c s', String d a' => same_letter c d && casing_variant s' a'
  | _, _ => false
  end.

(** [logo_scale] lies in the closed interval [0.1, 0.4]. *)
Definition logo_scale_in_range (logo_scale : float) : bool :=
  (0.1 <=? logo_scale)%float && (logo_scale <=? 0.4)%float.

(** ** Pixels written by the drawing calls

    The pixel at column [px] and row [py] lies in an image of the given
    size; [ImageDraw.rectangle] given two corners fills the columns and
    rows from the first corner to the second, the second included;
    [Image.paste] writes the columns and rows of the pasted image from
    its top-left corner on.  Both drop what falls outside the image. *)

Definition inside (sz : Z * Z) (px py : Z) : bool :=
  (0 <=? px) && (px <? fst sz) && (0 <=? py) && (py <? snd sz).

Definition rectangle_fills (sz : Z * Z) (x0 y0 x1 y1 px py : Z) : bool :=
  inside sz px py
  && (x0 <=? px) && (px <=? x1) && (y0 <=? py) && (py <=? y1).

Definition paste_region (sz fg : Z * Z) (x y px py : Z) : bool :=
  inside sz px py
  && (x <=? px) && (px <? x + fst fg) && (y <=? py) && (py <? y + snd fg).

(** ** Auxiliary definitions of the proofs *)

(** The 256 characters, for properties checked character by character. *)
Definition all_ascii : list ascii := map ascii_of_nat (seq 0 256).

(** The characters of the anchor names: lower-case ASCII letters and the
    hyphen. *)
Definition anchor_char (d : ascii) : bool :=
  let n := PyStr.code d in ((97 <=? n) && (n <=? 122)) || (n =? 45).

Fixpoint anchor_chars (a : string) : bool :=
  match a with
  | EmptyString => true
  | String d t => anchor_char d && anchor_chars t
  end.

(** [float(z)] is a positive finite float with exponent at most -41, that
    is, below 4096. *)
Definition size_float_ok (z : Z) : bool :=
  match PyNum.float_of_int z with
  | Ok f =>
      match Prim2SF f with
      | S754_finite false m e => (Z.pos m <? 2 ^ 53) && (e <=? -41)
      | _ => false
      end
  | Raise _ => false
  end.

(** * Properties *)

(** ** The result monad *)

Lemma bind_Ok_inv {A B} (r : result A) (k : A -> result B) (b : B) :
  bind r k = Ok b -> exists a, r = Ok a /\ k a = Ok b.
Proof. destruct r as [a|e]; simpl; intros H; [eauto | discriminate]. Qed.

Lemma bind_Raise_inv {A B} (r : result A) (k : A -> result B) (e : exn) :
  bind r k = Raise e -> r = Raise e \/ exists a, r = Ok a /\ k a = Raise e.
Proof.
  destruct r as [a|e']; simpl; intros H.
  - right; eauto.
  - left; inversion H; reflexivity.
Qed.

(** ** Position calculator *)

(** C1: for all integer backgrounds, QR sizes and margins, each of the five
    anchors yields exactly its closed-form coordinate, the centre one by
    floor division; the pair is returned as computed, with no clamping and
    no error, whatever its sign or magnitude. *)
Theorem calculate_position_closed_form :
  forall bg_w bg_h qr_size margin : Z,
    calculate_position bg_w bg_h qr_size "center" margin
      = Ok ((bg_w - qr_size) / 2, (bg_h - qr_size) / 2)
    /\ calculate_position bg_w bg_h qr_size "top-left" margin
      = Ok (margin, margin)
    /\ calculate_position bg_w bg_h qr_size "top-right" margin
      = Ok (bg_w - qr_size - margin, margin)
    /\ calculate_position bg_w bg_h qr_size "bottom-left" margin
      = Ok (margin, bg_h - qr_size - margin)
    /\ calculate_position bg_w bg_h qr_size "bottom-right" margin
      = Ok (bg_w - qr_size - margin, bg_h - qr_size - margin)
    /\ (2 * ((bg_w - qr_size) / 2) <= bg_w - qr_size
          < 2 * ((bg_w - qr_size) / 2) + 2)
    /\ (2 * ((bg_h - qr_size) / 2) <= bg_h - qr_size
          < 2 * ((bg_h - qr_size) / 2) + 2).
Proof.
  intros bg_w bg_h qr_size margin.
  repeat split; try reflexivity.
  all: pose proof (Z.div_mod (bg_w - qr_size) 2);
       pose proof (Z.mod_pos_bound (bg_w - qr_size) 2);
       pose proof (Z.div_mod (bg_h - qr_size) 2);
       pose proof (Z.mod_pos_bound (bg_h - qr_size) 2); lia.
Qed.

(** A QR larger than its background: the coordinates are negative and are
    returned as they are. *)
Example calculate_position_off_canvas :
  calculate_position 10 10 51 "center" 0 = Ok (-21, -21)
  /\ calculate_position 10 10 51 "bottom-right" 5 = Ok (-46, -46)
  /\ calculate_position 10 10 51 "top-left" 500 = Ok (500, 500).
Proof. repeat split. Qed.

(** ** Validators *)

Section Strip.

Import PyStr.

Lemma is_empty_true (s : string) : is_empty s = true <-> s = EmptyString.
Proof. destruct s; simpl; split; congruence. Qed.

Lemma lstrip_empty (s : string) :
  lstrip s = EmptyString <-> whitespace_only s.
Proof.
  unfold whitespace_only.
  induction s as [|c t IH]; simpl.
  - split; [intros _ c [] | reflexivity].
  - destruct (isspace c) eqn:Hc.
    + rewrite IH. split.
      * intros H d [<-|Hd]; auto.
      * intros H d Hd. apply H. now right.
    + split; [discriminate|].
      intros H. specialize (H c (or_introl eq_refl)). congruence.
Qed.

Lemma lstrip_head (s : string) (c : ascii) (t : string) :
  lstrip s = String c t -> isspace c = false.
Proof.
  induction s as [|d u IH]; simpl; [discriminate|].
  destruct (isspace d) eqn:Hd; [exact IH|].
  intros H. inversion H; subst. exact Hd.
Qed.

Lemma rstrip_head (c : ascii) (t : string) :
  isspace c = false -> rstrip (String c t) <> EmptyString.
Proof. intros H. simpl. rewrite H. simpl. discriminate. Qed.

(** [data.strip()] is empty exactly for whitespace-only data. *)
Lemma strip_empty (s : string) :
  strip s = EmptyString <-> whitespace_only s.
Proof.
  rewrite <- lstrip_empty. unfold strip.
  destruct (lstrip s) as [|c t] eqn:E.
  - simpl. tauto.
  - split; [|discriminate].
    intros H. exfalso. exact (rstrip_head c t (lstrip_head s c t E) H).
Qed.

End Strip.

Lemma validate_data_cases (data : string) :
  (data_rejected data /\ exists m, validate_data data = Raise (ValueError m))
  \/ (~ data_rejected data /\ validate_data data = Ok tt).
Proof.
  unfold validate_data, data_rejected, MAX_DATA_LENGTH.
  destruct (PyStr.is_empty data) eqn:E1; simpl.
  - left. apply is_empty_true in E1. split; [now left | eauto].
  - destruct (PyStr.is_empty (PyStr.strip data)) eqn:E2.
    + left. apply is_empty_true, strip_empty in E2.
      split; [right; now left | eauto].
    + destruct (PyStr.len data >? 4296) eqn:E3.
      * left. apply Z.gtb_lt in E3. split; [right; now right | eauto].
      * right. split; [|reflexivity].
        intros [H | [H | H]].
        -- apply is_empty_true in H. congruence.
        -- apply strip_empty, is_empty_true in H. congruence.
        -- apply Z.gtb_lt in H. congruence.
Qed.

Lemma validate_size_cases (size : Z) :
  ((size < 21 \/ 4000 < size)
   /\ validate_size size
      = Raise (ValueError "Size must be between 21 and 4000 pixels."))
  \/ (21 <= size <= 4000 /\ validate_size size = Ok tt).
Proof.
  unfold validate_size, MIN_QR_SIZE, MAX_QR_SIZE.
  destruct (21 <=? size) eqn:E1; destruct (size <=? 4000) eqn:E2; simpl;
    try apply Z.leb_le in E1; try apply Z.leb_le in E2;
    try apply Z.leb_gt in E1; try apply Z.leb_gt in E2;
    [right | left | left | left]; split; (reflexivity || lia).
Qed.

(** C2: [validate_data] raises [ValueError] (the package's InvalidInput)
    exactly on empty, whitespace-only or over-long data and returns
    otherwise; [validate_size] raises it exactly outside [21, 4000] and
    returns otherwise.  Both are functions of their argument alone, defined
    on every input. *)
Theorem validators_exact :
  (forall data : string,
      ((exists m, validate_data data = Raise (ValueError m))
       <-> data_rejected data)
      /\ (validate_data data = Ok tt <-> ~ data_rejected data))
  /\ (forall size : Z,
      ((exists m, validate_size size = Raise (ValueError m))
       <-> (size < 21 \/ 4000 < size))
      /\ (validate_size size = Ok tt <-> 21 <= size <= 4000)).
Proof.
  split.
  - intros data.
    destruct (validate_data_cases data) as [[Hr [m Hm]] | [Hr Hv]].
    + rewrite Hm. repeat split; eauto; try tauto; discriminate.
    + rewrite Hv. repeat split; try tauto.
      intros [m Hm]. discriminate.
  - intros size.
    destruct (validate_size_cases size) as [[Hr Hv] | [Hr Hv]]; rewrite Hv.
    + repeat split; eauto; try lia; discriminate.
    + repeat split; try lia; try discriminate.
      intros [m Hm]. discriminate.
Qed.

Example validate_data_examples :
  validate_data "" = Raise (ValueError "Data cannot be empty.")
  /\ validate_data "   " = Raise (ValueError "Data cannot be empty.")
  /\ validate_data "https://x" = Ok tt
  /\ validate_data " x " = Ok tt
  /\ validate_size 20 = Raise (ValueError "Size must be between 21 and 4000 pixels.")
  /\ validate_size 21 = Ok tt
  /\ validate_size 4000 = Ok tt
  /\ validate_size 4001 = Raise (ValueError "Size must be between 21 and 4000 pixels.").
Proof. repeat split. Qed.

(** The length bound is inclusive: 4296 characters pass, 4297 do not. *)
Example validate_data_length_boundary :
  validate_data (Stub.str_repeat 4296 "a") = Ok tt
  /\ validate_data (Stub.str_repeat 4297 "a")
     = Raise (ValueError "Data exceeds maximum length of 4296 characters.")
  /\ validate_data (Stub.str_repeat 4297 " ")
     = Raise (ValueError "Data cannot be empty.").
Proof. repeat split; vm_compute; reflexivity. Qed.

(** ** Case-insensitive anchors *)

Section Casing.

Import PyStr.

Lemma all_ascii_complete (c : ascii) : In c all_ascii.
Proof.
  unfold all_ascii. rewrite <- (ascii_nat_embedding c).
  apply in_map, in_seq. pose proof (nat_ascii_bounded c). lia.
Qed.

Lemma forallb_ascii (P : ascii -> bool) :
  forallb P all_ascii = true -> forall c, P c = true.
Proof.
  intros H c. rewrite forallb_forall in H. apply H, all_ascii_complete.
Qed.

Lemma same_letter_lower_char (c d : ascii) :
  anchor_char d = true ->
  same_letter c d = Ascii.eqb (lower_char c) d.
Proof.
  revert d. revert c.
  assert (H : forallb (fun c => forallb (fun d =>
                implb (anchor_char d)
                      (Bool.eqb (same_letter c d)
                                (Ascii.eqb (lower_char c) d)))
                all_ascii) all_ascii = true) by (vm_compute; reflexivity).
  intros c d Hd.
  pose proof (forallb_ascii _ (forallb_ascii _ H c) d) as E.
  simpl in E. rewrite Hd in E. simpl in E. now apply eqb_prop in E.
Qed.

Lemma lower_char_idempotent (c : ascii) :
  lower_char (lower_char c) = lower_char c.
Proof.
  revert c.
  assert (H : forallb (fun c =>
                Ascii.eqb (lower_char (lower_char c)) (lower_char c))
                all_ascii = true) by (vm_compute; reflexivity).
  intros c. apply Ascii.eqb_eq. exact (forallb_ascii _ H c).
Qed.

Lemma lower_idempotent (s : string) : lower (lower s) = lower s.
Proof.
  induction s as [|c t IH]; simpl; [reflexivity|].
  now rewrite lower_char_idempotent, IH.
Qed.

(** On a name made of anchor characters, being a casing variant is the
    same as lowering to that name. *)
Lemma casing_variant_lower (a : string) :
  anchor_chars a = true ->
  forall s, casing_variant s a = true <-> lower s = a.
Proof.
  induction a as [|d a' IH]; intros Ha s.
  - destruct s; simpl; split; congruence.
  - simpl in Ha. apply andb_true_iff in Ha as [Hd Ha'].
    destruct s as [|c s']; simpl; [split; discriminate|].
    rewrite andb_true_iff, (same_letter_lower_char c d Hd), Ascii.eqb_eq.
    rewrite (IH Ha' s'). split.
    + intros [-> ->]. reflexivity.
    + intros H. inversion H. auto.
Qed.

End Casing.

Lemma VALID_POSITIONS_anchor_chars (a : string) :
  In a VALID_POSITIONS -> anchor_chars a = true /\ PyStr.lower a = a.
Proof.
  unfold VALID_POSITIONS. simpl.
  intros [<-|[<-|[<-|[<-|[<-|[]]]]]]; split; reflexivity.
Qed.

Lemma calculate_position_lower (bg_w bg_h qr_size margin : Z) (s : string) :
  calculate_position bg_w bg_h qr_size (PyStr.lower s) margin
  = calculate_position bg_w bg_h qr_size s margin.
Proof. unfold calculate_position. now rewrite lower_idempotent. Qed.

Lemma calculate_position_valid (bg_w bg_h qr_size margin : Z) (a : string) :
  In a VALID_POSITIONS ->
  exists xy, calculate_position bg_w bg_h qr_size a margin = Ok xy.
Proof.
  unfold VALID_POSITIONS. simpl.
  intros [<-|[<-|[<-|[<-|[<-|[]]]]]]; eexists; reflexivity.
Qed.

Lemma calculate_position_invalid (bg_w bg_h qr_size margin : Z) (s : string) :
  (forall a, In a VALID_POSITIONS -> PyStr.lower s <> a) ->
  exists m, calculate_position bg_w bg_h qr_size s margin
            = Raise (ValueError m).
Proof.
  intros H. unfold calculate_position.
  assert (E : forall a, In a VALID_POSITIONS ->
                        (PyStr.lower s =? a)%string = false).
  { intros a Ha. apply String.eqb_neq. auto. }
  unfold VALID_POSITIONS in E. simpl in E.
  rewrite !E by tauto. eauto.
Qed.

(** C7: the anchor is read without regard to case.  A casing variant of one
    of the five anchor names is accepted and gives the coordinates of the
    lower-case name; a string that is a casing variant of none of them
    raises [ValueError] (the package's InvalidInput). *)
Theorem calculate_position_case_insensitive :
  forall (bg_w bg_h qr_size margin : Z) (s : string),
    (forall a, In a VALID_POSITIONS -> casing_variant s a = true ->
       calculate_position bg_w bg_h qr_size s margin
       = calculate_position bg_w bg_h qr_size a margin
       /\ exists xy, calculate_position bg_w bg_h qr_size s margin = Ok xy)
    /\ ((forall a, In a VALID_POSITIONS -> casing_variant s a = false) ->
        exists m, calculate_position bg_w bg_h qr_size s margin
                  = Raise (ValueError m)).
Proof.
  intros bg_w bg_h qr_size margin s. split.
  - intros a Ha Hv.
    destruct (VALID_POSITIONS_anchor_chars a Ha) as [Hc _].
    apply (casing_variant_lower a Hc) in Hv.
    rewrite <- (calculate_position_lower _ _ _ _ s), Hv.
    split; [reflexivity | now apply calculate_position_valid].
  - intros H. apply calculate_position_invalid.
    intros a Ha E.
    destruct (VALID_POSITIONS_anchor_chars a Ha) as [Hc _].
    apply (casing_variant_lower a Hc) in E.
    rewrite (H a Ha) in E. discriminate.
Qed.

Example calculate_position_casing_examples :
  calculate_position 400 300 100 "Bottom-Right" 10 = Ok (290, 190)
  /\ calculate_position 400 300 100 "CENTER" 10 = Ok (150, 100)
  /\ calculate_position 400 300 100 "tOp-LeFt" 10 = Ok (10, 10)
  /\ calculate_position 400 300 100 "middle" 10
     = Raise (ValueError "Unsupported position 'middle'. Use one of: center, top-left, top-right, bottom-left, bottom-right.")
  /\ calculate_position 400 300 100 "top_left" 10
     = Raise (ValueError "Unsupported position 'top_left'. Use one of: center, top-left, top-right, bottom-left, bottom-right.")
  /\ calculate_position 400 300 100 " center" 10
     = Raise (ValueError "Unsupported position ' center'. Use one of: center, top-left, top-right, bottom-left, bottom-right.").
Proof. repeat split. Qed.

(** ** Renderer *)

Section Renderer.

Context {C : Collaborators}.

Lemma generate_qr_Ok_inv (data : string) (qr_size border : Z)
    (fill_color back_color : string) (img : Image) :
  generate_qr data qr_size border fill_color back_color = Ok img ->
  validate_data data = Ok tt
  /\ 21 <= qr_size <= 4000
  /\ exists raw,
       qr_make_image data border fill_color back_color = Ok raw
       /\ img = Resize qr_size qr_size (Convert "RGBA" raw).
Proof.
  unfold generate_qr. intros H.
  apply bind_Ok_inv in H as [[] [Hd H]].
  apply bind_Ok_inv in H as [[] [Hs H]].
  apply bind_Ok_inv in H as [raw [Hr H]].
  inversion H; subst. split; [exact Hd|]. split; [|eauto].
  destruct (validate_size_cases qr_size) as [[_ E]|[E _]];
    [congruence | exact E].
Qed.

Lemma generate_qr_size (data : string) (qr_size border : Z)
    (fill_color back_color : string) (img : Image) :
  generate_qr data qr_size border fill_color back_color = Ok img ->
  size img = (qr_size, qr_size) /\ has_alpha img = true.
Proof.
  intros H. apply generate_qr_Ok_inv in H as (_ & _ & raw & _ & ->).
  split; reflexivity.
Qed.

(** With valid data and a valid size the renderer returns the symbol of
    the codec, converted and resized. *)
Lemma generate_qr_Ok (data : string) (qr_size border : Z)
    (fill_color back_color : string) (raw : Image) :
  validate_data data = Ok tt ->
  21 <= qr_size <= 4000 ->
  qr_make_image data border fill_color back_color = Ok raw ->
  generate_qr data qr_size border fill_color back_color
  = Ok (Resize qr_size qr_size (Convert "RGBA" raw)).
Proof.
  intros Hd HS Hraw. unfold generate_qr. rewrite Hd. cbn [bind].
  destruct (validate_size_cases qr_size) as [[E _]|[_ E]]; [lia|].
  rewrite E. cbn [bind]. now rewrite Hraw.
Qed.

(** C8: for valid data and a size S in [21, 4000], once the codec has
    produced a symbol -- of whatever pixel size and mode its version
    selection led to -- the renderer returns an image that is exactly
    S x S and carries an alpha channel; and whatever the renderer returns,
    for any data and S, is S x S with an alpha channel. *)
Theorem generate_qr_square (data : string) (S border : Z)
    (fill_color back_color : string) :
  (forall raw,
     validate_data data = Ok tt ->
     21 <= S <= 4000 ->
     qr_make_image data border fill_color back_color = Ok raw ->
     exists img,
       generate_qr data S border fill_color back_color = Ok img
       /\ size img = (S, S)
       /\ has_alpha img = true)
  /\ (forall img,
     generate_qr data S border fill_color back_color = Ok img ->
     size img = (S, S) /\ has_alpha img = true).
Proof.
  split.
  - intros raw Hd HS Hraw.
    exists (Resize S S (Convert "RGBA" raw)).
    split; [now apply generate_qr_Ok | split; reflexivity].
  - intros img. apply generate_qr_size.
Qed.

End Renderer.

(** [generate_qr_square] on the stand-in codec: a 290-pixel symbol is
    rendered at 500 pixels. *)
Lemma generate_qr_square_witness :
  exists img,
    @generate_qr Stub.collaborators "https://x" 500 4 "black" "white" = Ok img
    /\ size img = (500, 500)
    /\ has_alpha img = true.
Proof.
  apply (proj1 (@generate_qr_square Stub.collaborators "https://x" 500 4
                  "black" "white")
           (Symbol "https://x" 4 "black" "white" 290 290 "RGB")).
  - reflexivity.
  - lia.
  - reflexivity.
Defined.

(** ** Naming of batch outputs *)

Lemma rsplit1_shape (sep : ascii) (s : string) :
  (exists b e, rsplit1 sep s = [b; e]) \/ rsplit1 sep s = [s].
Proof.
  induction s as [|c t IH]; simpl; [now right|].
  destruct IH as [(b & e & ->) | ->].
  - left; eauto.
  - destruct (Ascii.eqb c sep); [left; eauto | now right].
Qed.

(** Every entry name of /batch/embed ends in [_qr.png]. *)
Lemma batch_embed_out_name_png (file : UploadFile) :
  exists base, batch_embed_out_name file = Ok (base ++ "_qr.png").
Proof.
  unfold batch_embed_out_name.
  set (name := match filename file with
               | Some n => if PyStr.is_empty n then "image.png" else n
               | None => "image.png"
               end).
  destruct (PyStr.contains_char "." name) eqn:E; [|eauto].
  assert (H : forall s, PyStr.contains_char "." s = true ->
                        exists b e, rsplit1 "." s = [b; e]).
  { clear. induction s as [|c t IH]; cbn [PyStr.contains_char rsplit1];
      [discriminate|].
    intros H. destruct (rsplit1_shape "." t) as [(b & e & ->) | Ht]; [eauto|].
    rewrite Ht. destruct (Ascii.eqb c ".") eqn:Ec; [eauto|].
    apply Ascii.eqb_neq in Ec.
    destruct (Ascii.eqb "." c) eqn:Ec'.
    - apply Ascii.eqb_eq in Ec'. congruence.
    - simpl in H. destruct (IH H) as (b & e & Hbe). congruence. }
  destruct (H name E) as (b & e & ->). eauto.
Qed.

(** C4 (as stated) fails on the command line: the output of [photo.jpg]
    keeps the extension of its source. *)
Lemma cli_batch_out_name_keeps_extension :
  ~ (batch_embed_out_name (Stub.upload "photo.jpg" 400 300) = Ok "photo_qr.png"
     /\ batch_embed_out_name (Stub.upload "photo" 400 300) = Ok "photo_qr.png"
     /\ cli_batch_out_name "photo.jpg" = "photo_qr.png"
     /\ cli_batch_out_name "photo" = "photo_qr.png").
Proof. intros (_ & _ & H & _). vm_compute in H. discriminate. Qed.

(** C4 (amended): in the archive of /batch/embed, [photo.jpg] and [photo]
    both give [photo_qr.png], and every entry name ends in [_qr.png].  On
    the command line the suffix [_qr] is inserted before the extension of
    the source, [.png] standing in only when there is none: [photo] gives
    [photo_qr.png], [photo.png] gives [photo_qr.png] and [photo.jpg] gives
    [photo_qr.jpg]. *)
Theorem batch_out_names :
  batch_embed_out_name (Stub.upload "photo.jpg" 400 300) = Ok "photo_qr.png"
  /\ batch_embed_out_name (Stub.upload "photo" 400 300) = Ok "photo_qr.png"
  /\ (forall file, exists base,
        batch_embed_out_name file = Ok (base ++ "_qr.png"))
  /\ cli_batch_out_name "photo" = "photo_qr.png"
  /\ cli_batch_out_name "photo.png" = "photo_qr.png"
  /\ cli_batch_out_name "photo.jpg" = "photo_qr.jpg"
  /\ cli_batch_out_name "in/dir.v2/photo.jpg" = "photo_qr.jpg".
Proof.
  repeat split; try reflexivity. apply batch_embed_out_name_png.
Qed.

Example batch_out_name_corner_cases :
  batch_embed_out_name {| filename := None; content := [] |}
    = Ok "image_qr.png"
  /\ batch_embed_out_name {| filename := Some ""; content := [] |}
    = Ok "image_qr.png"
  /\ batch_embed_out_name {| filename := Some "a.b.jpeg"; content := [] |}
    = Ok "a.b_qr.png"
  /\ batch_embed_out_name {| filename := Some ".hidden"; content := [] |}
    = Ok "_qr.png"
  /\ cli_batch_out_name "in/.hidden" = ".hidden_qr.png"
  /\ cli_batch_out_name "in/a.b.jpeg" = "a.b_qr.jpeg"
  /\ PosixPath.splitext "archive.tar.gz" = ("archive.tar", ".gz")
  /\ PosixPath.splitext "..x" = ("..x", "")
  /\ PosixPath.splitext "a/b.c/d" = ("a/b.c/d", "").
Proof. repeat split. Qed.

(** ** Module loading *)

(** C10 fails on the sources: four of the eight names the API module
    imports from the core module are not bound there, and loading the API
    module stops with [ImportError] at the first of them.  The command-line
    module imports only names that are bound. *)
Theorem api_import_fails :
  load_api
  = Raise (ImportError
      "cannot import name 'generate_qr_with_text' from 'qr_builder.core'")
  /\ filter (fun n => negb (is_bound core_namespace n)) api_imports_from_core
     = ["generate_qr_with_text"; "generate_qart"; "QRStyle";
        "ARTISTIC_PRESETS"]
  /\ load_cli = Ok tt.
Proof. repeat split. Qed.

(** ** Error mapping of the handlers *)

Section ErrorMapping.

Context {C : Collaborators}.

(** /qr answers 400 to every failure of the renderer, with the text of
    the exception as detail. *)
Lemma create_qr_failure (data : string) (size : Z)
    (fill_color back_color : string) (exc : exn) :
  generate_qr data size default_border fill_color back_color = Raise exc ->
  create_qr data size fill_color back_color
  = HTTPException 400 (str_exn exc).
Proof. unfold create_qr. now intros ->. Qed.

(** /embed tells the two kinds of failure apart. *)
Lemma embed_qr_failure (background : UploadFile) (data : string)
    (scale : float) (position : string) (margin : Z)
    (fill_color back_color : string) (exc : exn) :
  embed_qr_try background data scale position margin fill_color back_color
  = Raise exc ->
  embed_qr background data scale position margin fill_color back_color
  = if is_ValueError exc then HTTPException 400 (str_exn exc)
    else HTTPException 500 "Internal server error".
Proof. unfold embed_qr. now intros ->. Qed.

(** So does /qr/logo. *)
Lemma create_qr_with_logo_failure (fs : filesystem)
    (tmp_name out_name : string) (logo : UploadFile) (data : string)
    (size : Z) (logo_scale : float) (fill_color back_color : string)
    (exc : exn) :
  generate_qr_with_logo
    (fs_write (fs_write fs tmp_name (content logo)) out_name [])
    data tmp_name out_name size logo_scale fill_color back_color
  = Raise exc ->
  fst (create_qr_with_logo fs tmp_name out_name logo data size logo_scale
                           fill_color back_color)
  = if is_ValueError exc then HTTPException 400 (str_exn exc)
    else HTTPException 500 (str_exn exc).
Proof.
  unfold create_qr_with_logo. intros ->. now destruct (is_ValueError exc).
Qed.

(** Whatever exception the codec raises, /qr answers 400 with its text:
    the handler has one [except] clause for every [Exception]. *)
Lemma create_qr_codec_failure (data : string) (size : Z)
    (fill_color back_color : string) (exc : exn) :
  validate_data data = Ok tt ->
  validate_size size = Ok tt ->
  qr_make_image data default_border fill_color back_color = Raise exc ->
  create_qr data size fill_color back_color
  = HTTPException 400 (str_exn exc).
Proof.
  intros Hd Hs Hq. apply create_qr_failure.
  unfold generate_qr. now rewrite Hd, Hs, Hq.
Qed.

End ErrorMapping.

(** The handlers of /qr/artistic, /qr/qart and /batch/artistic answer 500
    to a [ValueError] as to any other exception. *)
Lemma artistic_handlers_ValueError (m : string) :
  create_artistic_qr (Raise (ValueError m)) = HTTPException 500 m
  /\ create_qart (Raise (ValueError m)) = HTTPException 500 m
  /\ batch_artistic_qr (Raise (ValueError m))
     = HTTPException 500 "Internal server error"
  /\ create_qr_with_text_endpoint (Raise (ValueError m))
     = HTTPException 400 m.
Proof. repeat split. Qed.

Section ArtisticErrors.

Context {A : ArtisticCodec}.

Variable ARTISTIC_PRESETS : string -> option (Z * float * float).



End ArtisticErrors.


(** The same request with a version the codec accepts is answered with the
    picture it wrote, and a preset replaces the version given. *)
Example create_artistic_qr_examples :
  create_artistic_qr
    (@create_artistic_qr_try Stub.artistic_codec Stub.presets
       (fun _ => None) "/tmp/tmpa.png" "/tmp/tmpb.png"
       (Stub.upload "photo.png" 64 64) "https://x" None 10 1 1 true)
  = StreamingResponse (Png (Stub.header 585 585))
  /\ create_artistic_qr
    (@create_artistic_qr_try Stub.artistic_codec Stub.presets
       (fun _ => None) "/tmp/tmpa.png" "/tmp/tmpb.png"
       (Stub.upload "photo.png" 64 64) "https://x" (Some small) 0 1 1 true)
  = StreamingResponse (Png (Stub.header 405 405))
  /\ PurePosixPath.parent "/tmp/tmpb.png" = "/tmp"
  /\ PurePosixPath.name "/tmp/tmpb.png" = "tmpb.png"
  /\ PurePosixPath.parent "out.png" = "."
  /\ PurePosixPath.parent "a/./b//c.png" = "a/b"
  /\ PurePosixPath.parent "/" = "/".
Proof. repeat split; vm_compute; reflexivity. Qed.

(** On the stand-ins, data beyond the capacity of the codec is refused with
    a [ValueError]: /qr and /embed both answer 400 with its text. *)
Example codec_overflow_is_400 :
  @create_qr Stub.collaborators (Stub.str_repeat 1300 "a") 500
             "black" "white"
  = HTTPException 400 "Invalid version (was 41, expected 1 to 40)"
  /\ @embed_qr Stub.collaborators (Stub.upload "bg.png" 2000 300)
            (Stub.str_repeat 1300 "a") 0.25 "center" 10 "black" "white"
  = HTTPException 400 "Invalid version (was 41, expected 1 to 40)"
  /\ @embed_qr Stub.collaborators (Stub.upload "bg.png" 2000 300)
            "" 0.25 "center" 10 "black" "white"
  = HTTPException 400 "Data cannot be empty."
  /\ @embed_qr Stub.collaborators
            {| filename := Some "bg.png"; content := [] |}
            "https://x" 0.25 "center" 10 "black" "white"
  = HTTPException 500 "Internal server error".
Proof. repeat split; vm_compute; reflexivity. Qed.

(** ** Embedding *)

Section Embedding.

Context {C : Collaborators}.

(** What a successful run of the [try] block of /embed went through. *)
Lemma embed_qr_try_Ok_inv (background : UploadFile) (data : string)
    (scale : float) (position : string) (margin : Z)
    (fill_color back_color : string) (out : list Byte.byte) :
  embed_qr_try background data scale position margin fill_color back_color
  = Ok out ->
  exists bg qr_img qr_size x y,
    image_open (content background) = Ok bg
    /\ ((0 <? scale)%float && (scale <=? 1)%float) = true
    /\ PyNum.int_mul (fst (size bg)) scale = Ok qr_size
    /\ generate_qr data qr_size default_border fill_color back_color
       = Ok qr_img
    /\ size qr_img = (qr_size, qr_size)
    /\ calculate_position (fst (size bg)) (snd (size bg)) qr_size
                          position margin = Ok (x, y)
    /\ image_encode (Paste (Convert "RGBA" bg) qr_img x y qr_img)
                    (ToFormat "PNG") = Ok out.
Proof.
  unfold embed_qr_try. intros H.
  apply bind_Ok_inv in H as [bg [Hbg H]].
  cbn [size] in H. destruct (size bg) as [bg_w bg_h] eqn:Hsz.
  apply bind_Ok_inv in H as [[] [Hscale H]].
  apply bind_Ok_inv in H as [qr_size [Hq H]].
  apply bind_Ok_inv in H as [qr_img [Hqr H]].
  apply bind_Ok_inv in H as [[x y] [Hxy H]].
  exists bg, qr_img, qr_size, x, y. rewrite Hsz. cbn [fst snd].
  repeat split; auto.
  - destruct ((0 <? scale)%float && (scale <=? 1)%float);
      [reflexivity | discriminate].
  - apply generate_qr_size in Hqr. tauto.
Qed.

(** The same for [embed_qr_in_image]. *)
Lemma embed_qr_in_image_Ok_inv (fs : filesystem)
    (background_image_path data output_path : string) (qr_scale : float)
    (position : string) (margin : Z) (fill_color back_color : string)
    (r : string * filesystem) :
  embed_qr_in_image fs background_image_path data output_path qr_scale
                    position margin fill_color back_color = Ok r ->
  exists raw bg qr_img qr_size x y out,
    fs background_image_path = Some raw
    /\ image_open raw = Ok bg
    /\ ((0 <? qr_scale)%float && (qr_scale <=? 1)%float) = true
    /\ PyNum.int_mul (fst (size bg)) qr_scale = Ok qr_size
    /\ generate_qr data qr_size default_border fill_color back_color
       = Ok qr_img
    /\ size qr_img = (qr_size, qr_size)
    /\ calculate_position (fst (size bg)) (snd (size bg)) qr_size
                          position margin = Ok (x, y)
    /\ image_encode (Paste (Convert "RGBA" bg) qr_img x y qr_img)
                    (ToPath output_path) = Ok out
    /\ r = (output_path, fs_write fs output_path out).
Proof.
  unfold embed_qr_in_image. intros H.
  apply bind_Ok_inv in H as [[] [_ H]].
  apply bind_Ok_inv in H as [raw [Hraw H]].
  apply bind_Ok_inv in H as [bg [Hbg H]].
  cbn [size] in H. destruct (size bg) as [bg_w bg_h] eqn:Hsz.
  apply bind_Ok_inv in H as [[] [Hscale H]].
  apply bind_Ok_inv in H as [qr_size [Hq H]].
  apply bind_Ok_inv in H as [qr_img [Hqr H]].
  apply bind_Ok_inv in H as [[x y] [Hxy H]].
  apply bind_Ok_inv in H as [out [Hout H]].
  exists raw, bg, qr_img, qr_size, x, y, out. rewrite Hsz. cbn [fst snd].
  repeat split; auto.
  - unfold fs_read in Hraw.
    destruct (fs background_image_path); [congruence | discriminate].
  - destruct ((0 <? qr_scale)%float && (qr_scale <=? 1)%float);
      [reflexivity | discriminate].
  - apply generate_qr_size in Hqr. tauto.
  - congruence.
Qed.

(** The converse: the steps, when each succeeds, make the [try] block of
    /embed return the encoded composite. *)
Lemma embed_qr_try_Ok (background : UploadFile) (data : string)
    (scale : float) (position : string) (margin : Z)
    (fill_color back_color : string) (bg qr_img : Image) (qr_size x y : Z)
    (out : list Byte.byte) :
  image_open (content background) = Ok bg ->
  ((0 <? scale)%float && (scale <=? 1)%float) = true ->
  PyNum.int_mul (fst (size bg)) scale = Ok qr_size ->
  generate_qr data qr_size default_border fill_color back_color = Ok qr_img ->
  calculate_position (fst (size bg)) (snd (size bg)) qr_size position margin
  = Ok (x, y) ->
  image_encode (Paste (Convert "RGBA" bg) qr_img x y qr_img) (ToFormat "PNG")
  = Ok out ->
  embed_qr_try background data scale position margin fill_color back_color
  = Ok out.
Proof.
  intros Hbg Hs Hq Hqr Hxy Hout.
  unfold embed_qr_try. rewrite Hbg. cbn [bind size].
  destruct (size bg) as [bg_w bg_h]. cbn [fst snd] in Hq, Hxy.
  rewrite Hs. cbn [negb bind]. rewrite Hq. cbn [bind].
  rewrite Hqr. cbn [bind]. rewrite Hxy. cbn [bind]. exact Hout.
Qed.

(** And for [embed_qr_in_image]. *)
Lemma embed_qr_in_image_Ok (fs : filesystem)
    (background_image_path data output_path : string) (qr_scale : float)
    (position : string) (margin : Z) (fill_color back_color : string)
    (raw : list Byte.byte) (bg qr_img : Image) (qr_size x y : Z)
    (out : list Byte.byte) :
  fs background_image_path = Some raw ->
  image_open raw = Ok bg ->
  ((0 <? qr_scale)%float && (qr_scale <=? 1)%float) = true ->
  PyNum.int_mul (fst (size bg)) qr_scale = Ok qr_size ->
  generate_qr data qr_size default_border fill_color back_color = Ok qr_img ->
  calculate_position (fst (size bg)) (snd (size bg)) qr_size position margin
  = Ok (x, y) ->
  image_encode (Paste (Convert "RGBA" bg) qr_img x y qr_img)
               (ToPath output_path) = Ok out ->
  embed_qr_in_image fs background_image_path data output_path qr_scale
                    position margin fill_color back_color
  = Ok (output_path, fs_write fs output_path out).
Proof.
  intros Hfs Hbg Hs Hq Hqr Hxy Hout.
  unfold embed_qr_in_image, fs_exists, fs_read. rewrite Hfs.
  cbn [negb bind]. rewrite Hbg. cbn [bind size].
  destruct (size bg) as [bg_w bg_h]. cbn [fst snd] in Hq, Hxy.
  rewrite Hs. cbn [negb bind]. rewrite Hq. cbn [bind].
  rewrite Hqr. cbn [bind]. rewrite Hxy. cbn [bind]. rewrite Hout.
  reflexivity.
Qed.

(** C5: an embed -- over HTTP or through [embed_qr_in_image] -- succeeds
    exactly when the background decodes, the scale lies in (0, 1], the
    renderer returns a QR for the size [int(W * scale)], [W] being the
    width of the background, the position is one the calculator accepts
    and the encoder succeeds; the QR pasted is then square of side
    [int(W * scale)], at the coordinate of the position calculator, and
    the image returned or saved is the encoding of that composite.  With a
    400 x 300 background, scale 0.25, position bottom-right and margin 10
    both succeed once the background decodes and the codec and the encoder
    succeed, with a QR of side 100 pasted at (290, 190). *)
Theorem embed_qr_size (background : UploadFile) (fs : filesystem)
    (background_image_path data output_path : string) (scale : float)
    (position : string) (margin : Z) (fill_color back_color : string) :
  (forall out,
     embed_qr background data scale position margin fill_color back_color
     = StreamingResponse (Png out)
     <-> exists bg qr_img qr_size x y,
         image_open (content background) = Ok bg
         /\ ((0 <? scale)%float && (scale <=? 1)%float) = true
         /\ PyNum.int_mul (fst (size bg)) scale = Ok qr_size
         /\ generate_qr data qr_size default_border fill_color back_color
            = Ok qr_img
         /\ size qr_img = (qr_size, qr_size)
         /\ calculate_position (fst (size bg)) (snd (size bg)) qr_size
                               position margin = Ok (x, y)
         /\ image_encode (Paste (Convert "RGBA" bg) qr_img x y qr_img)
                         (ToFormat "PNG") = Ok out)
  /\ (forall r,
     embed_qr_in_image fs background_image_path data output_path scale
                       position margin fill_color back_color = Ok r
     <-> exists raw bg qr_img qr_size x y out,
         fs background_image_path = Some raw
         /\ image_open raw = Ok bg
         /\ ((0 <? scale)%float && (scale <=? 1)%float) = true
         /\ PyNum.int_mul (fst (size bg)) scale = Ok qr_size
         /\ generate_qr data qr_size default_border fill_color back_color
            = Ok qr_img
         /\ size qr_img = (qr_size, qr_size)
         /\ calculate_position (fst (size bg)) (snd (size bg)) qr_size
                               position margin = Ok (x, y)
         /\ image_encode (Paste (Convert "RGBA" bg) qr_img x y qr_img)
                         (ToPath output_path) = Ok out
         /\ r = (output_path, fs_write fs output_path out))
  /\ (PyNum.int_mul 400 0.25 = Ok 100
      /\ calculate_position 400 300 100 "bottom-right" 10 = Ok (290, 190)
      /\ (forall bg sym out,
           image_open (content background) = Ok bg ->
           size bg = (400, 300) ->
           qr_make_image "https://x" default_border fill_color back_color
           = Ok sym ->
           let qr_img := Resize 100 100 (Convert "RGBA" sym) in
           image_encode (Paste (Convert "RGBA" bg) qr_img 290 190 qr_img)
                        (ToFormat "PNG") = Ok out ->
           embed_qr background "https://x" 0.25 "bottom-right" 10
                    fill_color back_color
           = StreamingResponse (Png out))
      /\ (forall raw bg sym out,
           fs background_image_path = Some raw ->
           image_open raw = Ok bg ->
           size bg = (400, 300) ->
           qr_make_image "https://x" default_border fill_color back_color
           = Ok sym ->
           let qr_img := Resize 100 100 (Convert "RGBA" sym) in
           image_encode (Paste (Convert "RGBA" bg) qr_img 290 190 qr_img)
                        (ToPath output_path) = Ok out ->
           embed_qr_in_image fs background_image_path "https://x"
                             output_path 0.25 "bottom-right" 10
                             fill_color back_color
           = Ok (output_path, fs_write fs output_path out))).
Proof.
  assert (Hq : PyNum.int_mul 400 0.25 = Ok 100) by (vm_compute; reflexivity).
  assert (Hqr : forall sym,
            qr_make_image "https://x" default_border fill_color back_color
            = Ok sym ->
            generate_qr "https://x" 100 default_border fill_color back_color
            = Ok (Resize 100 100 (Convert "RGBA" sym))).
  { intros sym Hsym. apply generate_qr_Ok; [reflexivity | lia | exact Hsym]. }
  split; [|split; [|split; [|split; [|split]]]].
  - intros out. split.
    + intros H. apply embed_qr_try_Ok_inv. unfold embed_qr in H.
      destruct (embed_qr_try _ _ _ _ _ _ _) as [o|e].
      * congruence.
      * destruct (is_ValueError e); discriminate.
    + intros (bg & qr_img & qr_size & x & y
              & Hbg & Hs & Hn & Hg & _ & Hxy & Hout).
      unfold embed_qr.
      now rewrite (embed_qr_try_Ok _ _ _ _ _ _ _ _ _ _ _ _ _
                     Hbg Hs Hn Hg Hxy Hout).
  - intros r. split.
    + apply embed_qr_in_image_Ok_inv.
    + intros (raw & bg & qr_img & qr_size & x & y & out
              & Hfs & Hbg & Hs & Hn & Hg & _ & Hxy & Hout & ->).
      now apply (embed_qr_in_image_Ok _ _ _ _ _ _ _ _ _ raw bg qr_img
                   qr_size x y out).
  - exact Hq.
  - reflexivity.
  - intros bg sym out Hbg Hsz Hsym qr_img Hout. unfold embed_qr.
    rewrite (embed_qr_try_Ok background "https://x" 0.25 "bottom-right" 10
               fill_color back_color bg qr_img 100 290 190 out);
      try reflexivity; try assumption.
    + now rewrite Hsz.
    + now apply Hqr.
    + now rewrite Hsz.
  - intros raw bg sym out Hfs Hbg Hsz Hsym qr_img Hout.
    apply (embed_qr_in_image_Ok fs background_image_path "https://x"
             output_path 0.25 "bottom-right" 10 fill_color back_color
             raw bg qr_img 100 290 190 out);
      try reflexivity; try assumption.
    + now rewrite Hsz.
    + now apply Hqr.
    + now rewrite Hsz.
Qed.

End Embedding.

(** [embed_qr_size] on the stand-ins: a 400 x 300 background, scale 0.25,
    bottom-right, margin 10, sent to /embed and given to
    [embed_qr_in_image] as the file [bg.png]. *)
Lemma embed_qr_size_witness :
  let bg := Decoded (Stub.header 400 300) 400 300 "RGB" in
  let qr_img :=
    Resize 100 100
      (Convert "RGBA"
         (Symbol "https://x" 4 "black" "white" 290 290 "RGB")) in
  Stub.encode (Paste (Convert "RGBA" bg) qr_img 290 190 qr_img)
              (ToFormat "PNG") = Ok (Stub.header 400 300)
  /\ @embed_qr Stub.collaborators (Stub.upload "bg.png" 400 300) "https://x"
              0.25 "bottom-right" 10 "black" "white"
     = StreamingResponse (Png (Stub.header 400 300))
  /\ @embed_qr_in_image Stub.collaborators Stub.bg_fs "bg.png" "https://x"
       "out.png" 0.25 "bottom-right" 10 "black" "white"
     = Ok ("out.png", fs_write Stub.bg_fs "out.png" (Stub.header 400 300)).
Proof.
  intros bg qr_img.
  destruct (@embed_qr_size Stub.collaborators (Stub.upload "bg.png" 400 300)
              Stub.bg_fs "bg.png" "https://x" "out.png" 0.25 "bottom-right"
              10 "black" "white")
    as (_ & _ & _ & _ & Hapi & Hcore).
  split; [reflexivity|]. split.
  - exact (Hapi bg (Symbol "https://x" 4 "black" "white" 290 290 "RGB")
             (Stub.header 400 300) eq_refl eq_refl eq_refl eq_refl).
  - exact (Hcore (Stub.header 400 300) bg
             (Symbol "https://x" 4 "black" "white" 290 290 "RGB")
             (Stub.header 400 300) eq_refl eq_refl eq_refl eq_refl eq_refl).
Defined.

(** ** Batch embedding *)

Section Batch.

Context {C : Collaborators}.

Variables (data : string) (scale : float) (position : string) (margin : Z)
          (fill_color back_color : string).

#[local] Abbreviation item file :=
  (batch_embed_item file data scale position margin fill_color back_color).

#[local] Abbreviation loop backgrounds zf :=
  (batch_embed_loop backgrounds zf data scale position margin
                    fill_color back_color).

(** The loop appends one entry per file, in the order of the files. *)
Lemma batch_embed_loop_Ok (backgrounds : list UploadFile) :
  forall zf zf',
    loop backgrounds zf = Ok zf' ->
    exists entries,
      zf' = (zf ++ entries)%list
      /\ Forall2 (fun file entry => item file = Ok entry)
                 backgrounds entries.
Proof.
  induction backgrounds as [|file rest IH]; intros zf zf' H.
  - inversion H; subst. exists []. now rewrite app_nil_r.
  - cbn [batch_embed_loop] in H.
    apply bind_Ok_inv in H as [entry [He H]].
    apply IH in H as (entries & -> & HF).
    exists (entry :: entries). rewrite <- app_assoc. split; [reflexivity|].
    now constructor.
Qed.

(** When every file can be processed the loop returns. *)
Lemma batch_embed_loop_all_Ok (backgrounds : list UploadFile) :
  forall zf entries,
    Forall2 (fun file entry => item file = Ok entry) backgrounds entries ->
    loop backgrounds zf = Ok (zf ++ entries)%list.
Proof.
  induction backgrounds as [|file rest IH]; intros zf entries HF;
    inversion HF as [|? entry ? entries' He HF']; subst.
  - now rewrite app_nil_r.
  - cbn [batch_embed_loop]. rewrite He.
    cbn [bind].
    rewrite (IH _ _ HF'), <- app_assoc. reflexivity.
Qed.

(** The loop stops at the first file that fails, with its exception:
    the files before it were processed, the files after it are not
    looked at, and no archive comes out. *)
Lemma batch_embed_loop_first_failure
    (before after : list UploadFile) (file : UploadFile) (e : exn) :
  forall zf entries,
    Forall2 (fun f entry => item f = Ok entry) before entries ->
    item file = Raise e ->
    loop (before ++ file :: after)%list zf = Raise e.
Proof.
  induction before as [|f rest IH]; intros zf entries HF He;
    inversion HF as [|? entry ? entries' Hf HF']; subst.
  - cbn [app batch_embed_loop].
    now rewrite He.
  - cbn [app batch_embed_loop]. rewrite Hf.
    cbn [bind]. exact (IH _ _ HF' He).
Qed.

(** Any failing file makes the loop fail. *)
Lemma batch_embed_loop_failure (backgrounds : list UploadFile) :
  forall zf file e,
    In file backgrounds ->
    item file = Raise e ->
    exists e', loop backgrounds zf = Raise e'.
Proof.
  induction backgrounds as [|f rest IH]; intros zf file e Hin He;
    [destruct Hin|].
  cbn [batch_embed_loop].
  destruct (item f) as [entry|e'] eqn:Hf; cbn [bind]; [|eauto].
  destruct Hin as [->|Hin]; [congruence|].
  exact (IH _ _ _ Hin He).
Qed.

Lemma batch_embed_item_name (file : UploadFile)
    (entry : string * list Byte.byte) :
  item file = Ok entry -> batch_embed_out_name file = Ok (fst entry).
Proof.
  unfold batch_embed_item. intros H.
  apply bind_Ok_inv in H as [bg [_ H]].
  cbn [size] in H. destruct (size bg) as [bg_w bg_h].
  apply bind_Ok_inv in H as [[] [_ H]].
  apply bind_Ok_inv in H as [qr_size [_ H]].
  apply bind_Ok_inv in H as [qr_img [_ H]].
  apply bind_Ok_inv in H as [[x y] [_ H]].
  apply bind_Ok_inv in H as [buf [_ H]].
  apply bind_Ok_inv in H as [name [Hn H]].
  inversion H; subst. exact Hn.
Qed.

(** C6: the batch is processed in the order received and is all or
    nothing.  An archive is returned exactly when every file was
    processed, and it then holds one entry per file, in input order,
    named after its file.  If files are processed up to one that fails,
    the answer is an error built from that file's exception -- status 400
    for a [ValueError], 500 otherwise -- and carries no archive; any
    failing file turns the answer into such an error. *)
Theorem batch_embed_all_or_nothing (backgrounds : list UploadFile) :
  (forall entries,
     batch_embed_qr backgrounds data scale position margin
                    fill_color back_color
     = StreamingResponse (Zip entries)
     <-> Forall2 (fun file entry => item file = Ok entry)
                 backgrounds entries)
  /\ (forall entries,
     batch_embed_qr backgrounds data scale position margin
                    fill_color back_color
     = StreamingResponse (Zip entries) ->
     Forall2 (fun file entry => batch_embed_out_name file = Ok (fst entry))
             backgrounds entries)
  /\ (forall before file after entries e,
     backgrounds = (before ++ file :: after)%list ->
     Forall2 (fun f entry => item f = Ok entry) before entries ->
     item file = Raise e ->
     batch_embed_qr backgrounds data scale position margin
                    fill_color back_color
     = if is_ValueError e then HTTPException 400 (str_exn e)
       else HTTPException 500 "Internal server error")
  /\ (forall file e,
     In file backgrounds ->
     item file = Raise e ->
     exists status detail,
       batch_embed_qr backgrounds data scale position margin
                      fill_color back_color
       = HTTPException status detail).
Proof.
  assert (Hinv : forall entries,
            batch_embed_qr backgrounds data scale position margin
                           fill_color back_color
            = StreamingResponse (Zip entries) ->
            Forall2 (fun file entry => item file = Ok entry)
                    backgrounds entries).
  { intros entries H. unfold batch_embed_qr in H.
    destruct (loop backgrounds []) as [zf|e] eqn:E.
    - apply batch_embed_loop_Ok in E as (entries' & -> & HF).
      cbn [app] in H. congruence.
    - destruct (is_ValueError e); discriminate. }
  split; [|split; [|split]].
  - intros entries. split; [apply Hinv|].
    intros HF. unfold batch_embed_qr.
    now rewrite (batch_embed_loop_all_Ok _ [] _ HF).
  - intros entries H. apply Hinv in H. revert H. apply Forall2_impl.
    intros file entry. apply batch_embed_item_name.
  - intros before file after entries e -> HF He.
    unfold batch_embed_qr.
    now rewrite (batch_embed_loop_first_failure _ _ _ _ [] _ HF He).
  - intros file e Hin He. unfold batch_embed_qr.
    destruct (batch_embed_loop_failure _ [] _ _ Hin He) as [e' ->].
    destruct (is_ValueError e'); eauto.
Qed.

End Batch.

(** Three uploads on the stand-ins: the archive lists them in input order;
    when the second is not an image, nothing but the error comes back. *)
Example batch_embed_examples :
  @batch_embed_qr Stub.collaborators
     [Stub.upload "b.jpg" 400 300; Stub.upload "a.png" 200 100;
      Stub.upload "b.jpg" 100 100]
     "https://x" 0.5 "center" 0 "black" "white"
  = StreamingResponse
      (Zip [("b_qr.png", Stub.header 400 300);
            ("a_qr.png", Stub.header 200 100);
            ("b_qr.png", Stub.header 100 100)])
  /\ @batch_embed_qr Stub.collaborators
     [Stub.upload "b.jpg" 400 300;
      {| filename := Some "broken.png"; content := [] |};
      Stub.upload "c.png" 100 100]
     "https://x" 0.5 "center" 0 "black" "white"
  = HTTPException 500 "Internal server error"
  /\ @batch_embed_qr Stub.collaborators
     [Stub.upload "b.jpg" 400 300; Stub.upload "tiny.png" 40 40]
     "https://x" 0.5 "center" 0 "black" "white"
  = HTTPException 400 "Size must be between 21 and 4000 pixels.".
Proof. repeat split; vm_compute; reflexivity. Qed.

(** ** Logo overlay *)

(** *** Rounding of binary64 products *)

Section Rounding.

Lemma digits2_pos_size (p : positive) : digits2_pos p = Pos.size p.
Proof. induction p; simpl; congruence. Qed.

Lemma digits2_pos_log2 (p : positive) :
  Z.pos (digits2_pos p) = Z.log2 (Z.pos p) + 1.
Proof.
  rewrite digits2_pos_size.
  change (Z.pos (Pos.size p)) with (Z.log2 (Z.pos p~0)).
  change (Z.pos p~0) with (2 * Z.pos p).
  rewrite Z.log2_double by lia. lia.
Qed.

Lemma Zdigits2_bound (m k : Z) :
  0 <= m < 2 ^ k -> 0 <= k -> Zdigits2 m <= k.
Proof.
  intros [H0 Hk] Hk0. destruct m as [|p|p]; simpl; [lia| |lia].
  rewrite digits2_pos_log2.
  apply Z.log2_lt_pow2 in Hk; lia.
Qed.

Lemma digits2_pos_bound (p : positive) (k : Z) :
  Z.pos (digits2_pos p) <= k -> Z.pos p < 2 ^ k.
Proof.
  rewrite digits2_pos_log2. intros H.
  apply Z.log2_lt_pow2; lia.
Qed.

Lemma shr_1_bound (mrs : shr_record) :
  0 <= shr_m mrs -> 0 <= shr_m (shr_1 mrs) <= shr_m mrs.
Proof.
  destruct mrs as [m r s]. simpl.
  destruct m as [|[p|p|]|p]; simpl; lia.
Qed.

Lemma iter_shr_1_bound (n : positive) :
  forall mrs, 0 <= shr_m mrs ->
              0 <= shr_m (iter_pos shr_1 n mrs) <= shr_m mrs.
Proof.
  induction n as [n IH|n IH|]; intros mrs H; simpl.
  - pose proof (shr_1_bound mrs H) as H1.
    pose proof (IH _ (proj1 H1)) as H2.
    pose proof (IH _ (proj1 H2)). lia.
  - pose proof (IH _ H) as H1.
    pose proof (IH _ (proj1 H1)). lia.
  - now apply shr_1_bound.
Qed.

Lemma shr_fexp_bound (m e : Z) (l : location) :
  0 <= m ->
  let '(mrs, e') := shr_fexp prec emax m e l in
  0 <= shr_m mrs <= m
  /\ e' = Z.max e (fexp prec emax (Zdigits2 m + e)).
Proof.
  intros Hm. unfold shr_fexp, shr.
  assert (Hr : shr_m (shr_record_of_loc m l) = m)
    by (destruct l as [|[]]; reflexivity).
  destruct (fexp prec emax (Zdigits2 m + e) - e) as [|n|n] eqn:E.
  - rewrite Hr. lia.
  - pose proof (iter_shr_1_bound n (shr_record_of_loc m l)) as H.
    rewrite Hr in H. specialize (H Hm). lia.
  - rewrite Hr. lia.
Qed.

Lemma round_nearest_even_bound (m : Z) (l : location) :
  0 <= m -> 0 <= round_nearest_even m l <= m + 1.
Proof.
  intros H. destruct l as [|[]]; simpl; try lia.
  destruct (Z.even m); lia.
Qed.

(** Rounding a product below 2^106 with exponent at most -95 gives zero
    or a finite number. *)
Lemma binary_round_aux_finite (sx : bool) (p : positive) (ex : Z) :
  Z.pos p < 2 ^ 106 -> ex <= -95 ->
  match binary_round_aux prec emax sx (Z.pos p) ex loc_Exact with
  | S754_zero _ | S754_finite _ _ _ => True
  | _ => False
  end.
Proof.
  intros Hp Hex. unfold binary_round_aux.
  pose proof (shr_fexp_bound (Z.pos p) ex loc_Exact) as H1.
  destruct (shr_fexp prec emax (Z.pos p) ex loc_Exact) as [mrs' e'].
  destruct H1 as [Hm' He']; [lia|].
  pose proof (round_nearest_even_bound (shr_m mrs') (loc_of_shr_record mrs')
                (proj1 Hm')) as Hr.
  set (m2 := round_nearest_even (shr_m mrs') (loc_of_shr_record mrs')) in *.
  pose proof (shr_fexp_bound m2 e' loc_Exact) as H2.
  destruct (shr_fexp prec emax m2 e' loc_Exact) as [mrs'' e''].
  destruct H2 as [Hm'' He'']; [lia|].
  assert (Hd1 : Zdigits2 (Z.pos p) <= 106)
    by (apply Zdigits2_bound; lia).
  assert (Hd2 : Zdigits2 m2 <= 107).
  { apply Zdigits2_bound; [|lia].
    change (2 ^ 107) with (2 * 2 ^ 106). lia. }
  unfold fexp, emin, prec, emax in He', He''.
  destruct (shr_m mrs'') as [|q|q]; [exact I| |lia].
  assert (E : (e'' <=? emax - prec) = true)
    by (apply Z.leb_le; unfold emax, prec; lia).
  rewrite E. exact I.
Qed.

End Rounding.

(** *** [int(size * logo_scale)] is defined on validated inputs *)

Lemma float_of_valid_size (size : Z) :
  21 <= size <= 4000 ->
  exists f m e,
    PyNum.float_of_int size = Ok f
    /\ Prim2SF f = S754_finite false m e
    /\ Z.pos m < 2 ^ 53 /\ e <= -41.
Proof.
  intros H.
  assert (A : forallb size_float_ok (map Z.of_nat (seq 21 3980)) = true)
    by (vm_compute; reflexivity).
  rewrite forallb_forall in A.
  specialize (A size). unfold size_float_ok in A.
  destruct (PyNum.float_of_int size) as [f|] eqn:Ef.
  - destruct (Prim2SF f) as [| | |[] m e] eqn:Em;
      try (discriminate A; rewrite <- (Z2Nat.id size) by lia;
           apply in_map, in_seq; lia).
    exists f, m, e. repeat split; auto.
    all: assert (B : (Z.pos m <? 2 ^ 53) && (e <=? -41) = true)
           by (apply A; rewrite <- (Z2Nat.id size) by lia;
               apply in_map, in_seq; lia);
         apply andb_true_iff in B as [B1 B2];
         apply Z.ltb_lt in B1; apply Z.leb_le in B2; assumption.
  - discriminate A. rewrite <- (Z2Nat.id size) by lia.
    apply in_map, in_seq. lia.
Qed.

Lemma logo_scale_in_range_finite (s : float) :
  logo_scale_in_range s = true ->
  exists m e, Prim2SF s = S754_finite false m e
              /\ Z.pos m < 2 ^ 53 /\ e <= -54.
Proof.
  unfold logo_scale_in_range. rewrite andb_true_iff, !leb_spec.
  replace (Prim2SF 0.1) with (S754_finite false 7205759403792794 (-56))
    by (vm_compute; reflexivity).
  replace (Prim2SF 0.4) with (S754_finite false 7205759403792794 (-54))
    by (vm_compute; reflexivity).
  pose proof (Prim2SF_valid s) as Hv.
  destruct (Prim2SF s) as [b|b| |b m e]; unfold SFleb, SFcompare;
    intros [Hlo Hhi]; try destruct b; try discriminate.
  exists m, e. split; [reflexivity|].
  unfold valid_binary, bounded, canonical_mantissa in Hv.
  apply andb_true_iff in Hv as [Hc _]. apply Z.eqb_eq in Hc.
  unfold fexp, emin, prec, emax in Hc. split.
  - apply digits2_pos_bound. lia.
  - destruct (Z.compare_spec e (-54)) as [E|E|E]; try lia; discriminate Hhi.
Qed.

Lemma int_mul_logo_scale (size : Z) (s : float) :
  21 <= size <= 4000 ->
  logo_scale_in_range s = true ->
  exists n, PyNum.int_mul size s = Ok n.
Proof.
  intros Hsize Hs.
  destruct (float_of_valid_size size Hsize) as (f & m & e & Ef & Em & Hm & He).
  destruct (logo_scale_in_range_finite s Hs) as (ms & es & Es & Hms & Hes).
  unfold PyNum.int_mul, PyNum.mul_int_float. rewrite Ef. cbn [bind].
  unfold PyNum.int_of_float. rewrite mul_spec, Em, Es.
  unfold SF64mul, SFmul. cbn [xorb].
  pose proof (binary_round_aux_finite false (m * ms) (e + es)) as H.
  destruct (binary_round_aux prec emax false (Z.pos (m * ms)) (e + es)
                             loc_Exact); eauto.
  - exfalso. apply H; [|lia].
    change (2 ^ 106) with (2 ^ 53 * 2 ^ 53). rewrite Pos2Z.inj_mul. nia.
  - exfalso. apply H; [|lia].
    change (2 ^ 106) with (2 ^ 53 * 2 ^ 53). rewrite Pos2Z.inj_mul. nia.
Qed.

(** *** The range check of [generate_qr_with_logo] *)

Section Logo.

Context {C : Collaborators}.

(** With the logo file in place, a scale outside the interval is refused
    before anything else is looked at. *)
Lemma generate_qr_with_logo_out_of_range (fs : filesystem)
    (data logo_path output_path : string) (size : Z) (logo_scale : float)
    (fill_color back_color : string) :
  fs_exists fs logo_path = true ->
  logo_scale_in_range logo_scale = false ->
  generate_qr_with_logo fs data logo_path output_path size logo_scale
                        fill_color back_color
  = Raise (ValueError
      "logo_scale should be between 0.1 and 0.4 for reliable scanning.").
Proof.
  intros Hfs Hs. unfold generate_qr_with_logo.
  rewrite Hfs. cbn [negb bind].
  unfold logo_scale_in_range in Hs. rewrite Hs. reflexivity.
Qed.

(** When everything before the box succeeds, a background colour the
    drawing call cannot parse makes [generate_qr_with_logo] raise the
    exception of the colour parser, for a scale inside the interval too. *)
Lemma generate_qr_with_logo_unpaintable (fs : filesystem)
    (data logo_path output_path : string) (size : Z) (logo_scale : float)
    (fill_color back_color : string) (raw : list Byte.byte)
    (logo sym : Image) (e : exn) :
  fs logo_path = Some raw ->
  image_open raw = Ok logo ->
  validate_data data = Ok tt ->
  21 <= size <= 4000 ->
  qr_make_image data default_border fill_color back_color = Ok sym ->
  logo_scale_in_range logo_scale = true ->
  getcolor back_color "RGBA" = Raise e ->
  generate_qr_with_logo fs data logo_path output_path size logo_scale
                        fill_color back_color = Raise e.
Proof.
  intros Hfs Hlogo Hdata Hsize Hsym Hs Hcol.
  unfold generate_qr_with_logo, fs_exists, fs_read.
  rewrite Hfs. cbn [negb bind].
  unfold logo_scale_in_range in Hs. rewrite Hs. cbn [negb bind].
  rewrite (generate_qr_Ok data size default_border fill_color
             back_color sym Hdata Hsize Hsym).
  cbn [bind]. rewrite Hlogo. cbn [bind].
  destruct (int_mul_logo_scale size logo_scale Hsize Hs) as [n ->].
  cbn [bind image_mode]. now rewrite Hcol.
Qed.

(** C9: with the other inputs valid -- the logo file exists and decodes,
    the data and the size pass validation, the codec accepts the colours,
    the background colour is one the drawing call can parse, and the
    encoder succeeds -- [generate_qr_with_logo] raises [ValueError] (the
    package's InvalidInput) exactly when [logo_scale] is outside
    [0.1, 0.4] and succeeds otherwise; 0.05 and 0.41 are outside, 0.1 and
    0.4 inside. *)
Theorem generate_qr_with_logo_scale_range (fs : filesystem)
    (data logo_path output_path : string) (size : Z) (logo_scale : float)
    (fill_color back_color : string) (raw : list Byte.byte)
    (logo sym : Image) (ink : list Z) :
  fs logo_path = Some raw ->
  image_open raw = Ok logo ->
  validate_data data = Ok tt ->
  21 <= size <= 4000 ->
  qr_make_image data default_border fill_color back_color = Ok sym ->
  getcolor back_color "RGBA" = Ok ink ->
  (forall img, exists out, image_encode img (ToPath output_path) = Ok out) ->
  ((exists m,
      generate_qr_with_logo fs data logo_path output_path size logo_scale
                            fill_color back_color = Raise (ValueError m))
   <-> logo_scale_in_range logo_scale = false)
  /\ ((exists r,
      generate_qr_with_logo fs data logo_path output_path size logo_scale
                            fill_color back_color = Ok r)
   <-> logo_scale_in_range logo_scale = true)
  /\ logo_scale_in_range 0.05 = false
  /\ logo_scale_in_range 0.1 = true
  /\ logo_scale_in_range 0.4 = true
  /\ logo_scale_in_range 0.41 = false.
Proof.
  intros Hfs Hlogo Hdata Hsize Hsym Hcol Henc.
  assert (Hex : fs_exists fs logo_path = true)
    by (unfold fs_exists; now rewrite Hfs).
  assert (Hok : logo_scale_in_range logo_scale = true ->
                exists r,
                  generate_qr_with_logo fs data logo_path output_path size
                    logo_scale fill_color back_color = Ok r).
  { intros Hs. unfold generate_qr_with_logo.
    rewrite Hex. cbn [negb bind].
    unfold logo_scale_in_range in Hs. rewrite Hs. cbn [negb bind].
    rewrite (generate_qr_Ok data size default_border fill_color
               back_color sym Hdata Hsize Hsym).
    cbn [bind]. unfold fs_read. rewrite Hfs. cbn [bind].
    rewrite Hlogo. cbn [bind].
    destruct (int_mul_logo_scale size logo_scale Hsize Hs) as [n ->].
    cbn [bind image_mode]. rewrite Hcol. cbn [bind].
    match goal with
    | |- context [image_encode ?img _] =>
        destruct (Henc img) as [out ->]
    end.
    cbn [bind]. eauto. }
  assert (Hbad : logo_scale_in_range logo_scale = false ->
                 generate_qr_with_logo fs data logo_path output_path size
                   logo_scale fill_color back_color
                 = Raise (ValueError
                     "logo_scale should be between 0.1 and 0.4 for reliable scanning."))
    by (now apply generate_qr_with_logo_out_of_range).
  split; [|split].
  - split; [|eauto].
    intros [m Hm]. destruct (logo_scale_in_range logo_scale); [|reflexivity].
    destruct (Hok eq_refl) as [r Hr]. congruence.
  - split; [|exact Hok].
    intros [r Hr]. destruct (logo_scale_in_range logo_scale); [reflexivity|].
    rewrite (Hbad eq_refl) in Hr. discriminate.
  - repeat split.
Qed.

End Logo.

(** [generate_qr_with_logo_scale_range] on the stand-ins, with a 64 x 64
    logo on a 500-pixel QR at scale 0.4. *)
Lemma generate_qr_with_logo_scale_range_witness :
  exists r,
    @generate_qr_with_logo Stub.collaborators Stub.logo_fs "https://x"
      "logo.png" "out.png" 500 0.4 "black" "white" = Ok r.
Proof.
  apply (proj1 (proj2
    (@generate_qr_with_logo_scale_range Stub.collaborators Stub.logo_fs
       "https://x" "logo.png" "out.png" 500 0.4 "black" "white"
       (Stub.header 64 64)
       (Decoded (Stub.header 64 64) 64 64 "RGB")
       (Symbol "https://x" 4 "black" "white" 290 290 "RGB")
       [255; 255; 255; 255]
       eq_refl eq_refl eq_refl ltac:(lia) eq_refl eq_refl
       (fun img => ex_intro _ _ eq_refl)))).
  reflexivity.
Defined.

(** The four scales of the boundary scenario, run on the stand-ins: the
    two inner ones write a 500 x 500 image, the two outer ones raise. *)
Example generate_qr_with_logo_boundaries :
  let run scale :=
    match @generate_qr_with_logo Stub.collaborators Stub.logo_fs "https://x"
            "logo.png" "out.png" 500 scale "black" "white" with
    | Ok (p, fs) => Ok (p, fs p)
    | Raise e => Raise e
    end in
  let refused :=
    Raise (ValueError
      "logo_scale should be between 0.1 and 0.4 for reliable scanning.") in
  run 0.05%float = refused
  /\ run 0.1%float = Ok ("out.png", Some (Stub.header 500 500))
  /\ run 0.4%float = Ok ("out.png", Some (Stub.header 500 500))
  /\ run 0.41%float = refused.
Proof. repeat split; vm_compute; reflexivity. Qed.

(** A transparent background is a colour for the codec and none for the
    drawing call: on the stand-ins the QR is rendered and the box is
    refused, at a scale inside the interval. *)
Example generate_qr_with_logo_transparent :
  (exists img,
     @generate_qr Stub.collaborators "https://x" 500 4 "black" "transparent"
     = Ok img)
  /\ logo_scale_in_range 0.25 = true
  /\ @generate_qr_with_logo Stub.collaborators Stub.logo_fs "https://x"
       "logo.png" "out.png" 500 0.25 "black" "transparent"
     = Raise (ValueError "unknown color specifier: 'transparent'").
Proof.
  split; [eexists; vm_compute; reflexivity|].
  split; vm_compute; reflexivity.
Qed.

(** * Further properties of the code *)

(** ** Placement inside the canvas *)

(** X1: when the margin is not negative and the QR with a margin on both
    sides fits the background in each direction, every one of the five
    anchors places the QR inside the canvas and at least [margin] pixels
    away from each of its four edges. *)
Theorem calculate_position_keeps_margin
    (bg_w bg_h qr_size margin : Z) (a : string) :
  In a VALID_POSITIONS ->
  0 <= margin ->
  qr_size + 2 * margin <= bg_w ->
  qr_size + 2 * margin <= bg_h ->
  exists x y,
    calculate_position bg_w bg_h qr_size a margin = Ok (x, y)
    /\ margin <= x /\ x + qr_size + margin <= bg_w
    /\ margin <= y /\ y + qr_size + margin <= bg_h.
Proof.
  intros Ha Hm Hw Hh.
  pose proof (Z.div_mod (bg_w - qr_size) 2 ltac:(lia)) as Dw.
  pose proof (Z.mod_pos_bound (bg_w - qr_size) 2 ltac:(lia)) as Bw.
  pose proof (Z.div_mod (bg_h - qr_size) 2 ltac:(lia)) as Dh.
  pose proof (Z.mod_pos_bound (bg_h - qr_size) 2 ltac:(lia)) as Bh.
  unfold VALID_POSITIONS in Ha. simpl in Ha.
  destruct Ha as [<-|[<-|[<-|[<-|[<-|[]]]]]];
    eexists _, _; (split; [reflexivity | lia]).
Qed.

Lemma calculate_position_keeps_margin_witness :
  exists x y,
    calculate_position 400 300 100 "top-right" 10 = Ok (x, y)
    /\ 10 <= x /\ x + 100 + 10 <= 400 /\ 10 <= y /\ y + 100 + 10 <= 300.
Proof.
  apply (calculate_position_keeps_margin 400 300 100 10 "top-right").
  - simpl. tauto.
  - lia.
  - lia.
  - lia.
Defined.

(** X2: the centre anchor ignores the margin, and it splits the free space
    evenly: the gap on the left (top) is the gap on the right (bottom) or
    one pixel less, for every background and QR size, fitting or not. *)
Theorem calculate_position_center_balanced
    (bg_w bg_h qr_size margin margin' : Z) :
  calculate_position bg_w bg_h qr_size "center" margin
  = calculate_position bg_w bg_h qr_size "center" margin'
  /\ exists x y,
       calculate_position bg_w bg_h qr_size "center" margin = Ok (x, y)
       /\ x <= bg_w - qr_size - x <= x + 1
       /\ y <= bg_h - qr_size - y <= y + 1.
Proof.
  split; [reflexivity|].
  pose proof (Z.div_mod (bg_w - qr_size) 2 ltac:(lia)) as Dw.
  pose proof (Z.mod_pos_bound (bg_w - qr_size) 2 ltac:(lia)) as Bw.
  pose proof (Z.div_mod (bg_h - qr_size) 2 ltac:(lia)) as Dh.
  pose proof (Z.mod_pos_bound (bg_h - qr_size) 2 ltac:(lia)) as Bh.
  eexists _, _. split; [reflexivity | lia].
Qed.

(** ** Entry names of the archive *)

Lemma contains_char_app (c : ascii) (b e : string) :
  PyStr.contains_char c (b ++ String c e) = true.
Proof.
  induction b as [|d b IH]; cbn [append PyStr.contains_char].
  - now rewrite Ascii.eqb_refl.
  - rewrite IH. apply orb_true_r.
Qed.

(** Cutting at the last separator undoes joining with it. *)
Lemma rsplit1_join (sep : ascii) (b e : string) :
  PyStr.contains_char sep e = false ->
  rsplit1 sep (b ++ String sep e) = [b; e].
Proof.
  intros He.
  assert (Hn : rsplit1 sep e = [e]).
  { clear b. induction e as [|d e IH]; [reflexivity|].
    cbn [PyStr.contains_char] in He. apply orb_false_iff in He as [Hd He].
    cbn [rsplit1]. rewrite (IH He).
    destruct (Ascii.eqb d sep) eqn:E; [|reflexivity].
    apply Ascii.eqb_eq in E. subst d. now rewrite Ascii.eqb_refl in Hd. }
  induction b as [|d b IH]; cbn [append rsplit1].
  - now rewrite Hn, Ascii.eqb_refl.
  - now rewrite IH.
Qed.

(** And joining undoes the cut. *)
Lemma rsplit1_inv (sep : ascii) (s b e : string) :
  rsplit1 sep s = [b; e] ->
  s = b ++ String sep e /\ PyStr.contains_char sep e = false.
Proof.
  revert b e. induction s as [|c t IH]; intros b e H; [discriminate|].
  cbn [rsplit1] in H.
  destruct (rsplit1_shape sep t) as [(b' & e' & Ht) | Ht]; rewrite Ht in H.
  - inversion H; subst. destruct (IH _ _ Ht) as [-> He]. now split.
  - destruct (Ascii.eqb c sep) eqn:E; [|discriminate].
    apply Ascii.eqb_eq in E. inversion H; subst. split; [reflexivity|].
    clear -Ht. induction e as [|d e IH]; [reflexivity|].
    cbn [rsplit1] in Ht. cbn [PyStr.contains_char].
    destruct (rsplit1_shape sep e) as [(b' & e' & He) | He];
      rewrite He in Ht; [discriminate|].
    destruct (Ascii.eqb d sep) eqn:E; [discriminate|].
    rewrite (IH He), orb_false_r.
    destruct (Ascii.eqb sep d) eqn:E'; [|reflexivity].
    apply Ascii.eqb_eq in E'. subst d. now rewrite Ascii.eqb_refl in E.
Qed.

(** X3: the entry name of /batch/embed is built from what stands before
    the last dot of the uploaded name and from nothing else.  Uploads
    whose names differ only in their last extension, or of which one has no
    extension at all, therefore get the same entry name. *)
Theorem batch_embed_out_name_drops_extension
    (base ext : string) (raw : list Byte.byte) :
  PyStr.contains_char "." ext = false ->
  batch_embed_out_name
    {| filename := Some (base ++ String "." ext); content := raw |}
  = Ok (base ++ "_qr.png")
  /\ (PyStr.contains_char "." base = false ->
      base <> EmptyString ->
      batch_embed_out_name {| filename := Some base; content := raw |}
      = Ok (base ++ "_qr.png")).
Proof.
  intros He. split.
  - unfold batch_embed_out_name. cbn [filename].
    assert (Hne : PyStr.is_empty (base ++ String "." ext) = false)
      by (destruct base; reflexivity).
    rewrite Hne, contains_char_app, (rsplit1_join "." base ext He).
    reflexivity.
  - intros Hb Hne. unfold batch_embed_out_name. cbn [filename].
    destruct base as [|c t]; [congruence|].
    cbn [PyStr.is_empty]. now rewrite Hb.
Qed.

Lemma batch_embed_out_name_drops_extension_witness :
  batch_embed_out_name
    {| filename := Some "photo.jpg"; content := [] |} = Ok "photo_qr.png"
  /\ batch_embed_out_name
    {| filename := Some "photo.png"; content := [] |} = Ok "photo_qr.png".
Proof.
  split.
  - exact (proj1 (batch_embed_out_name_drops_extension "photo" "jpg" []
                    eq_refl)).
  - exact (proj1 (batch_embed_out_name_drops_extension "photo" "png" []
                    eq_refl)).
Defined.

(** ** Output names of the command line *)

Section PathFacts.

Import PosixPath.







End PathFacts.


(** ** Embedding over HTTP, in a batch and from the command line *)

Section EmbedFacts.

Context {C : Collaborators}.

(** One turn of the batch loop is the [try] block of /embed followed by
    the naming of the entry. *)
Lemma batch_embed_item_embed_qr_try (file : UploadFile) (data : string)
    (scale : float) (position : string) (margin : Z)
    (fill_color back_color : string) :
  batch_embed_item file data scale position margin fill_color back_color
  = (out <- embed_qr_try file data scale position margin
                         fill_color back_color ;;
     name <- batch_embed_out_name file ;;
     Ok (name, out)).
Proof.
  unfold batch_embed_item, embed_qr_try.
  destruct (image_open (content file)) as [bg|e]; [|reflexivity].
  cbn [bind size]. destruct (size bg) as [bg_w bg_h].
  destruct (negb ((0 <? scale)%float && (scale <=? 1)%float));
    [reflexivity|].
  cbn [bind]. destruct (PyNum.int_mul bg_w scale) as [q|e]; [|reflexivity].
  cbn [bind].
  destruct (generate_qr data q default_border fill_color back_color)
    as [qr|e]; [|reflexivity].
  cbn [bind].
  destruct (calculate_position bg_w bg_h q position margin) as [[x y]|e];
    reflexivity.
Qed.

(** X5: every entry of the archive of /batch/embed holds exactly the bytes
    /embed answers when it is sent the same file with the same fields, and
    a batch of one file succeeds exactly when /embed does. *)
Theorem batch_embed_entries_are_embeds (backgrounds : list UploadFile)
    (data : string) (scale : float) (position : string) (margin : Z)
    (fill_color back_color : string) :
  (forall entries,
     batch_embed_qr backgrounds data scale position margin
                    fill_color back_color
     = StreamingResponse (Zip entries) ->
     Forall2 (fun file entry =>
                embed_qr file data scale position margin
                         fill_color back_color
                = StreamingResponse (Png (snd entry)))
             backgrounds entries)
  /\ (forall file out,
     embed_qr file data scale position margin fill_color back_color
     = StreamingResponse (Png out)
     <-> exists name,
           batch_embed_qr [file] data scale position margin
                          fill_color back_color
           = StreamingResponse (Zip [(name, out)])).
Proof.
  assert (Hitem : forall file entry,
            batch_embed_item file data scale position margin
                             fill_color back_color = Ok entry ->
            embed_qr file data scale position margin fill_color back_color
            = StreamingResponse (Png (snd entry))).
  { intros file entry H. rewrite batch_embed_item_embed_qr_try in H.
    apply bind_Ok_inv in H as [out [Ho H]].
    apply bind_Ok_inv in H as [name [_ H]].
    inversion H; subst. unfold embed_qr. now rewrite Ho. }
  split.
  - intros entries H. unfold batch_embed_qr in H.
    destruct (batch_embed_loop backgrounds [] data scale position margin
                               fill_color back_color) as [zf|e] eqn:E.
    + apply batch_embed_loop_Ok in E as (entries' & -> & HF).
      cbn [app] in H. inversion H; subst.
      revert HF. apply Forall2_impl. exact Hitem.
    + destruct (is_ValueError e); discriminate.
  - intros file out. unfold batch_embed_qr, embed_qr.
    cbn [batch_embed_loop]. rewrite batch_embed_item_embed_qr_try.
    destruct (embed_qr_try file data scale position margin
                           fill_color back_color) as [o|e]; cbn [bind].
    + destruct (batch_embed_out_name_png file) as [base ->]. cbn [bind app].
      split.
      * intros H. inversion H; subst. eauto.
      * intros [name H]. inversion H; subst. reflexivity.
    + split.
      * destruct (is_ValueError e); discriminate.
      * intros [name H]. destruct (is_ValueError e); discriminate.
Qed.


(** X7: a background too narrow, or too wide, for the scale is refused.
    When the background decodes, the scale is in range, the data is valid
    and [int(width * scale)] falls outside [21, 4000], /embed answers 400
    with the size message of the validator, whatever the position. *)
Theorem embed_qr_refuses_size_out_of_range (file : UploadFile) (bg : Image)
    (data : string) (scale : float) (position : string) (margin qr_size : Z)
    (fill_color back_color : string) :
  image_open (content file) = Ok bg ->
  ((0 <? scale)%float && (scale <=? 1)%float) = true ->
  PyNum.int_mul (fst (size bg)) scale = Ok qr_size ->
  validate_data data = Ok tt ->
  qr_size < 21 \/ 4000 < qr_size ->
  embed_qr file data scale position margin fill_color back_color
  = HTTPException 400 "Size must be between 21 and 4000 pixels.".
Proof.
  intros Hbg Hs Hq Hd Hr.
  unfold embed_qr, embed_qr_try. rewrite Hbg. cbn [bind size].
  destruct (size bg) as [bg_w bg_h]. cbn [fst] in Hq.
  rewrite Hs. cbn [negb bind]. rewrite Hq. cbn [bind].
  unfold generate_qr. rewrite Hd. cbn [bind].
  destruct (validate_size_cases qr_size) as [[_ E]|[E _]]; [|lia].
  now rewrite E.
Qed.

End EmbedFacts.


(** [embed_qr_refuses_size_out_of_range] on the stand-ins: a background 60 pixels
    wide at the default scale 0.3 asks for an 18-pixel QR. *)
Lemma embed_qr_refuses_size_out_of_range_witness :
  @embed_qr Stub.collaborators (Stub.upload "bg.png" 60 60) "https://x"
            0.3 "nowhere" 20 "black" "white"
  = HTTPException 400 "Size must be between 21 and 4000 pixels.".
Proof.
  apply (@embed_qr_refuses_size_out_of_range Stub.collaborators
           (Stub.upload "bg.png" 60 60)
           (Decoded (Stub.header 60 60) 60 60 "RGB")
           "https://x" 0.3 "nowhere" 20 18 "black" "white").
  - reflexivity.
  - reflexivity.
  - vm_compute. reflexivity.
  - reflexivity.
  - lia.
Defined.

(** ** Files written by the core functions *)

Section FileFacts.

Context {C : Collaborators}.

Lemma fs_write_same (fs : filesystem) (p : string) (b : list Byte.byte) :
  fs_write fs p b p = Some b.
Proof. unfold fs_write. now rewrite String.eqb_refl. Qed.

Lemma fs_write_other (fs : filesystem) (p q : string) (b : list Byte.byte) :
  q <> p -> fs_write fs p b q = fs q.
Proof.
  intros H. unfold fs_write. apply String.eqb_neq in H. now rewrite H.
Qed.

(** X8: [embed_qr_in_image] and /embed build the same picture.  When the
    function succeeds on a background file it returns the output path,
    leaves every other path as it was, and the file written is the
    encoding of a composite image as large as the background; /embed, sent
    the content of that background with the same fields, runs the PNG
    encoder on that very image. *)
Theorem embed_qr_in_image_matches_embed_qr (fs fs' : filesystem)
    (background_image_path data output_path p : string) (scale : float)
    (position : string) (margin : Z) (fill_color back_color : string)
    (file : UploadFile) :
  fs background_image_path = Some (content file) ->
  embed_qr_in_image fs background_image_path data output_path scale
                    position margin fill_color back_color = Ok (p, fs') ->
  exists bg composite out,
    image_open (content file) = Ok bg
    /\ size composite = size bg
    /\ image_encode composite (ToPath output_path) = Ok out
    /\ p = output_path
    /\ fs' output_path = Some out
    /\ (forall q, q <> output_path -> fs' q = fs q)
    /\ embed_qr_try file data scale position margin fill_color back_color
       = image_encode composite (ToFormat "PNG").
Proof.
  intros Hfs H.
  apply embed_qr_in_image_Ok_inv in H
    as (raw & bg & qr_img & qr_size & x & y & out
        & Hraw & Hbg & Hs & Hq & Hqr & _ & Hxy & Hout & Hr).
  rewrite Hfs in Hraw. inversion Hraw; subst raw. inversion Hr; subst.
  exists bg, (Paste (Convert "RGBA" bg) qr_img x y qr_img), out.
  repeat split; auto.
  - apply fs_write_same.
  - intros q Hq'. now apply fs_write_other.
  - unfold embed_qr_try. rewrite Hbg. cbn [bind size].
    destruct (size bg) as [bg_w bg_h]. cbn [fst snd] in Hq, Hxy.
    rewrite Hs. cbn [negb bind]. rewrite Hq. cbn [bind].
    rewrite Hqr. cbn [bind]. rewrite Hxy. reflexivity.
Qed.

(** X9: [embed_qr_in_image] looks at the background before anything else.
    A missing file raises [FileNotFoundError] naming the path, and a file
    that does not decode raises the exception of the decoder, in both
    cases whatever the scale, the data and the position are -- an invalid
    scale is only reported for a background that decodes. *)
Theorem embed_qr_in_image_background_first (fs : filesystem)
    (background_image_path data output_path : string) (scale : float)
    (position : string) (margin : Z) (fill_color back_color : string) :
  (fs background_image_path = None ->
   embed_qr_in_image fs background_image_path data output_path scale
                     position margin fill_color back_color
   = Raise (FileNotFoundError
              ("Background image not found: " ++ background_image_path)))
  /\ (forall raw e,
      fs background_image_path = Some raw ->
      image_open raw = Raise e ->
      embed_qr_in_image fs background_image_path data output_path scale
                        position margin fill_color back_color = Raise e)
  /\ (forall raw bg,
      fs background_image_path = Some raw ->
      image_open raw = Ok bg ->
      ((0 <? scale)%float && (scale <=? 1)%float) = false ->
      embed_qr_in_image fs background_image_path data output_path scale
                        position margin fill_color back_color
      = Raise (ValueError "qr_scale must be between 0 and 1.")).
Proof.
  unfold embed_qr_in_image, fs_exists, fs_read. split; [|split].
  - intros ->. reflexivity.
  - intros raw e -> He. cbn [negb bind]. now rewrite He.
  - intros raw bg -> Hbg Hs. cbn [negb bind]. rewrite Hbg. cbn [bind size].
    destruct (size bg) as [bg_w bg_h]. now rewrite Hs.
Qed.

(** X10: the [qr] command and /qr render the same image.  When
    [generate_qr_only] succeeds it returns the output path, changes no
    other path, and the file written is the encoding of a square image of
    the requested size; /qr, for the same data, size and colours, runs the
    PNG encoder on that very image.  When the renderer fails,
    [generate_qr_only] raises its exception and writes nothing. *)
Theorem generate_qr_only_matches_create_qr (fs : filesystem)
    (data output_path : string) (size_px : Z)
    (fill_color back_color : string) :
  (forall p fs',
     generate_qr_only fs data output_path size_px fill_color back_color
     = Ok (p, fs') ->
     exists img out,
       generate_qr data size_px default_border fill_color back_color = Ok img
       /\ size img = (size_px, size_px)
       /\ image_encode img (ToPath output_path) = Ok out
       /\ p = output_path
       /\ fs' output_path = Some out
       /\ (forall q, q <> output_path -> fs' q = fs q)
       /\ create_qr data size_px fill_color back_color
          = match image_encode img (ToFormat "PNG") with
            | Ok buf => StreamingResponse (Png buf)
            | Raise e => Unhandled e
            end)
  /\ (forall e,
     generate_qr data size_px default_border fill_color back_color = Raise e ->
     generate_qr_only fs data output_path size_px fill_color back_color
     = Raise e).
Proof.
  split.
  - intros p fs' H. unfold generate_qr_only in H.
    apply bind_Ok_inv in H as [img [Hg H]].
    apply bind_Ok_inv in H as [out [Ho H]].
    inversion H; subst. exists img, out.
    repeat split; auto.
    + now apply generate_qr_size in Hg.
    + apply fs_write_same.
    + intros q Hq. now apply fs_write_other.
    + unfold create_qr. now rewrite Hg.
  - intros e H. unfold generate_qr_only. now rewrite H.
Qed.

End FileFacts.

(** [embed_qr_in_image_matches_embed_qr] on the stand-ins. *)
Lemma embed_qr_in_image_matches_embed_qr_witness :
  exists bg composite out,
    Stub.open (Stub.header 64 64) = Ok bg
    /\ size composite = size bg
    /\ Stub.encode composite (ToPath "out.png") = Ok out
    /\ "out.png" = "out.png"
    /\ fs_write Stub.logo_fs "out.png" (Stub.header 64 64) "out.png"
       = Some out
    /\ (forall q, q <> "out.png" ->
          fs_write Stub.logo_fs "out.png" (Stub.header 64 64) q
          = Stub.logo_fs q)
    /\ @embed_qr_try Stub.collaborators (Stub.upload "logo.png" 64 64)
         "https://x" 0.5 "center" 0 "black" "white"
       = Stub.encode composite (ToFormat "PNG").
Proof.
  apply (@embed_qr_in_image_matches_embed_qr Stub.collaborators
           Stub.logo_fs _ "logo.png" "https://x" "out.png" "out.png" 0.5
           "center" 0 "black" "white" (Stub.upload "logo.png" 64 64)).
  - reflexivity.
  - vm_compute. reflexivity.
Defined.

(** ** The logo overlay and its handler *)

Section LogoFacts.

Context {C : Collaborators}.

(** What a successful run of [generate_qr_with_logo] went through. *)
Lemma generate_qr_with_logo_Ok_inv (fs : filesystem)
    (data logo_path output_path : string) (size_px : Z) (logo_scale : float)
    (fill_color back_color : string) (r : string * filesystem) :
  generate_qr_with_logo fs data logo_path output_path size_px logo_scale
                        fill_color back_color = Ok r ->
  exists raw logo qr_img logo_size ink out,
    fs logo_path = Some raw
    /\ image_open raw = Ok logo
    /\ logo_scale_in_range logo_scale = true
    /\ generate_qr data size_px default_border fill_color back_color
       = Ok qr_img
    /\ PyNum.int_mul size_px logo_scale = Ok logo_size
    /\ getcolor back_color "RGBA" = Ok ink
    /\ (let overlay := Resize logo_size logo_size (Convert "RGBA" logo) in
        let pos := (size_px - logo_size) / 2 in
        let box := (size_px - (logo_size + 10 * 2)) / 2 in
        image_encode
          (Paste (Rectangle qr_img box box
                            (box + (logo_size + 10 * 2))
                            (box + (logo_size + 10 * 2)) back_color)
                 overlay pos pos overlay)
          (ToPath output_path) = Ok out)
    /\ r = (output_path, fs_write fs output_path out).
Proof.
  unfold generate_qr_with_logo, logo_scale_in_range. intros H.
  apply bind_Ok_inv in H as [[] [_ H]].
  apply bind_Ok_inv in H as [[] [Hs H]].
  apply bind_Ok_inv in H as [qr_img [Hqr H]].
  apply bind_Ok_inv in H as [raw [Hraw H]].
  apply bind_Ok_inv in H as [logo [Hlogo H]].
  apply bind_Ok_inv in H as [logo_size [Hn H]].
  apply bind_Ok_inv in H as [ink [Hink H]].
  apply bind_Ok_inv in H as [out [Hout H]].
  exists raw, logo, qr_img, logo_size, ink, out.
  split; [|split; [|split; [|split; [|split; [|split; [|split]]]]]]; auto.
  - unfold fs_read in Hraw. destruct (fs logo_path); [congruence|discriminate].
  - destruct ((0.1 <=? logo_scale)%float && (logo_scale <=? 0.4)%float);
      [reflexivity | discriminate].
  - apply generate_qr_Ok_inv in Hqr as (_ & _ & sym & _ & ->).
    exact Hink.
  - congruence.
Qed.

(** X11: in every image [generate_qr_with_logo] saves, the logo is a
    square pasted at the centre of the QR (the gap before it is the gap
    after it or one pixel less), and the box painted behind it in the
    background colour covers, within the QR, the columns and the rows from
    10 pixels before the first pixel of the logo to 11 pixels after its
    last one; every pixel the logo is pasted on has been painted by the
    box. *)
Theorem generate_qr_with_logo_geometry (fs : filesystem)
    (data logo_path output_path : string) (size_px : Z) (logo_scale : float)
    (fill_color back_color : string) (r : string * filesystem) :
  generate_qr_with_logo fs data logo_path output_path size_px logo_scale
                        fill_color back_color = Ok r ->
  exists qr_img overlay logo_size pos x0 y0 x1 y1 out,
    generate_qr data size_px default_border fill_color back_color = Ok qr_img
    /\ size qr_img = (size_px, size_px)
    /\ PyNum.int_mul size_px logo_scale = Ok logo_size
    /\ size overlay = (logo_size, logo_size)
    /\ pos <= size_px - logo_size - pos <= pos + 1
    /\ image_encode
         (Paste (Rectangle qr_img x0 y0 x1 y1 back_color)
                overlay pos pos overlay)
         (ToPath output_path) = Ok out
    /\ snd r output_path = Some out
    /\ (forall px py,
          rectangle_fills (size qr_img) x0 y0 x1 y1 px py = true
          <-> (0 <= px < size_px /\ 0 <= py < size_px
               /\ pos - 10 <= px <= (pos + logo_size - 1) + 11
               /\ pos - 10 <= py <= (pos + logo_size - 1) + 11))
    /\ (forall px py,
          paste_region (size qr_img) (size overlay) pos pos px py = true ->
          rectangle_fills (size qr_img) x0 y0 x1 y1 px py = true).
Proof.
  intros H.
  apply generate_qr_with_logo_Ok_inv in H
    as (raw & logo & qr_img & logo_size & ink & out
        & _ & _ & _ & Hqr & Hn & _ & Hout & ->).
  cbv zeta in Hout.
  pose proof (generate_qr_size _ _ _ _ _ _ Hqr) as [Hsz _].
  pose proof (Z.div_mod (size_px - logo_size) 2 ltac:(lia)) as D.
  pose proof (Z.mod_pos_bound (size_px - logo_size) 2 ltac:(lia)) as B.
  assert (E : (size_px - (logo_size + 10 * 2)) / 2
              = (size_px - logo_size) / 2 - 10).
  { replace (size_px - (logo_size + 10 * 2))
      with ((size_px - logo_size) + (-10) * 2) by lia.
    rewrite Z.div_add by lia. lia. }
  rewrite E in Hout.
  set (pos := (size_px - logo_size) / 2) in *.
  exists qr_img, (Resize logo_size logo_size (Convert "RGBA" logo)),
         logo_size, pos, (pos - 10), (pos - 10),
         (pos - 10 + (logo_size + 10 * 2)),
         (pos - 10 + (logo_size + 10 * 2)), out.
  split; [exact Hqr|]. split; [exact Hsz|]. split; [exact Hn|].
  split; [reflexivity|]. split; [lia|]. split; [exact Hout|].
  split; [cbn [snd]; apply fs_write_same|].
  rewrite Hsz. cbn [size].
  unfold rectangle_fills, paste_region, inside. cbn [fst snd].
  split; intros px py.
  - rewrite !andb_true_iff, !Z.leb_le, !Z.ltb_lt. lia.
  - rewrite !andb_true_iff, !Z.leb_le, !Z.ltb_lt.
    intros H.
    assert (0 <= logo_size) by lia. lia.
Qed.

(** X12: /qr/logo stores the upload before it calls the core function, so
    the check for the logo file cannot fail there, and a [logo_scale]
    outside [0.1, 0.4] is answered 400 with the range message whatever the
    upload, the data, the size and the colours are. *)
Theorem create_qr_with_logo_scale_rejected (fs : filesystem)
    (tmp_name out_name : string) (logo : UploadFile) (data : string)
    (size_px : Z) (logo_scale : float) (fill_color back_color : string) :
  logo_scale_in_range logo_scale = false ->
  fst (create_qr_with_logo fs tmp_name out_name logo data size_px logo_scale
                           fill_color back_color)
  = HTTPException 400
      "logo_scale should be between 0.1 and 0.4 for reliable scanning.".
Proof.
  intros Hs. unfold create_qr_with_logo.
  rewrite generate_qr_with_logo_out_of_range; [reflexivity | | exact Hs].
  unfold fs_exists, fs_write.
  destruct (tmp_name =? out_name)%string; [reflexivity|].
  now rewrite String.eqb_refl.
Qed.

(** X13: the two temporary files of /qr/logo are removed only on the way
    out of a successful request.  On success neither name exists
    afterwards, every other path is as before, and the body is the content
    the core function wrote; when the core function raises, the uploaded
    logo and the empty output file both stay on disk. *)
Theorem create_qr_with_logo_temporary_files (fs : filesystem)
    (tmp_name out_name : string) (logo : UploadFile) (data : string)
    (size_px : Z) (logo_scale : float) (fill_color back_color : string) :
  tmp_name <> out_name ->
  let staged := fs_write (fs_write fs tmp_name (content logo)) out_name [] in
  let answer := create_qr_with_logo fs tmp_name out_name logo data size_px
                                    logo_scale fill_color back_color in
  (forall r,
     generate_qr_with_logo staged data tmp_name out_name size_px logo_scale
                           fill_color back_color = Ok r ->
     fst answer = StreamingResponse
                    (Png (match snd r out_name with
                          | Some b => b
                          | None => []
                          end))
     /\ snd r out_name <> None
     /\ snd answer tmp_name = None
     /\ snd answer out_name = None
     /\ (forall q, q <> tmp_name -> q <> out_name -> snd answer q = fs q))
  /\ (forall e,
     generate_qr_with_logo staged data tmp_name out_name size_px logo_scale
                           fill_color back_color = Raise e ->
     snd answer tmp_name = Some (content logo)
     /\ snd answer out_name = Some []
     /\ exists status, fst answer = HTTPException status (str_exn e)).
Proof.
  intros Hne staged answer. subst staged answer. split.
  - intros r H. unfold create_qr_with_logo. rewrite H.
    apply generate_qr_with_logo_Ok_inv in H
      as (raw & lg & qr_img & n & ink & out
          & _ & _ & _ & _ & _ & _ & _ & ->).
    cbn [snd]. unfold fs_read. rewrite fs_write_same. cbn [fst snd].
    repeat split.
    + discriminate.
    + unfold fs_unlink. apply String.eqb_neq in Hne. rewrite Hne.
      now rewrite String.eqb_refl.
    + unfold fs_unlink. now rewrite String.eqb_refl.
    + intros q Hq1 Hq2. unfold fs_unlink, fs_write.
      apply String.eqb_neq in Hq1, Hq2. now rewrite Hq1, Hq2.
  - intros e H. unfold create_qr_with_logo. rewrite H. cbn [fst snd].
    repeat split.
    + rewrite fs_write_other by exact Hne. apply fs_write_same.
    + apply fs_write_same.
    + destruct (is_ValueError e); eauto.
Qed.

End LogoFacts.

(** [generate_qr_with_logo_geometry] on the stand-ins: a 500-pixel QR with
    a logo at scale 0.4. *)
Lemma generate_qr_with_logo_geometry_witness :
  exists qr_img overlay logo_size pos x0 y0 x1 y1 out,
    @generate_qr Stub.collaborators "https://x" 500 default_border
                 "black" "white" = Ok qr_img
    /\ size qr_img = (500, 500)
    /\ PyNum.int_mul 500 0.4 = Ok logo_size
    /\ size overlay = (logo_size, logo_size)
    /\ pos <= 500 - logo_size - pos <= pos + 1
    /\ Stub.encode
         (Paste (Rectangle qr_img x0 y0 x1 y1 "white")
                overlay pos pos overlay)
         (ToPath "out.png") = Ok out
    /\ fs_write Stub.logo_fs "out.png" (Stub.header 500 500) "out.png"
       = Some out
    /\ (forall px py,
          rectangle_fills (size qr_img) x0 y0 x1 y1 px py = true
          <-> (0 <= px < 500 /\ 0 <= py < 500
               /\ pos - 10 <= px <= (pos + logo_size - 1) + 11
               /\ pos - 10 <= py <= (pos + logo_size - 1) + 11))
    /\ (forall px py,
          paste_region (size qr_img) (size overlay) pos pos px py = true ->
          rectangle_fills (size qr_img) x0 y0 x1 y1 px py = true).
Proof.
  apply (@generate_qr_with_logo_geometry Stub.collaborators Stub.logo_fs
           "https://x" "logo.png" "out.png" 500 0.4 "black" "white"
           ("out.png", fs_write Stub.logo_fs "out.png" (Stub.header 500 500))).
  vm_compute. reflexivity.
Defined.

(** [create_qr_with_logo_scale_rejected] on the stand-ins, with an upload
    that is not an image and empty data. *)
Lemma create_qr_with_logo_scale_rejected_witness :
  fst (@create_qr_with_logo Stub.collaborators Stub.logo_fs "tmp1.png"
         "tmp2.png" {| filename := None; content := [] |} "" 500 0.41
         "black" "white")
  = HTTPException 400
      "logo_scale should be between 0.1 and 0.4 for reliable scanning.".
Proof.
  apply (@create_qr_with_logo_scale_rejected Stub.collaborators Stub.logo_fs
           "tmp1.png" "tmp2.png" {| filename := None; content := [] |} ""
           500 0.41 "black" "white").
  reflexivity.
Defined.

(** [create_qr_with_logo_temporary_files] on the stand-ins: with empty
    data the request fails and both temporary files are still there. *)
Lemma create_qr_with_logo_temporary_files_witness :
  let answer :=
    @create_qr_with_logo Stub.collaborators Stub.logo_fs "tmp1.png"
      "tmp2.png" (Stub.upload "logo.png" 64 64) "" 500 0.25
      "black" "white" in
  snd answer "tmp1.png" = Some (Stub.header 64 64)
  /\ snd answer "tmp2.png" = Some []
  /\ exists status, fst answer = HTTPException status "Data cannot be empty.".
Proof.
  apply (proj2 (@create_qr_with_logo_temporary_files Stub.collaborators
                  Stub.logo_fs "tmp1.png" "tmp2.png"
                  (Stub.upload "logo.png" 64 64) "" 500 0.25
                  "black" "white" ltac:(discriminate))
           (ValueError "Data cannot be empty.")).
  vm_compute. reflexivity.
Defined.

(** ** The batch-embed command *)

Section CliFacts.

Context {C : Collaborators}.

Variable path_join : string -> string -> string.

Variables (data output_dir : string) (scale : float) (position : string)
          (margin : Z) (fill_color back_color : string).

#[local] Abbreviation run fs matched :=
  (main_batch_embed path_join fs matched data output_dir scale position
                    margin fill_color back_color).

#[local] Abbreviation out_path in_path :=
  (path_join output_dir (cli_batch_out_name in_path)).

#[local] Abbreviation embed fs in_path :=
  (embed_qr_in_image fs in_path data (out_path in_path) scale position
                     margin fill_color back_color).

Lemma main_batch_embed_app (l1 l2 : list string) :
  forall fs,
    run fs (l1 ++ l2)%list
    = match run fs l1 with
      | (fs1, Ok _) => run fs1 l2
      | (fs1, Raise e) => (fs1, Raise e)
      end.
Proof.
  induction l1 as [|p l1 IH]; intros fs; cbn [app main_batch_embed];
    [reflexivity|].
  destruct (embed fs p) as [[q fs']|e]; [apply IH | reflexivity].
Qed.

(** One successful embed keeps every file that was there. *)
Lemma embed_qr_in_image_keeps_files (fs fs' : filesystem)
    (in_path p : string) :
  embed fs in_path = Ok (p, fs') ->
  fs' (out_path in_path) <> None
  /\ forall q, fs q <> None -> fs' q <> None.
Proof.
  intros H.
  apply embed_qr_in_image_Ok_inv in H
    as (raw & bg & qr_img & qr_size & x & y & out & _ & _ & _ & _ & _ & _
        & _ & _ & Hr).
  inversion Hr; subst. split.
  - rewrite fs_write_same. discriminate.
  - intros q Hq. unfold fs_write.
    destruct (q =? out_path in_path)%string; [discriminate | exact Hq].
Qed.

Lemma main_batch_embed_keeps_files (matched : list string) :
  forall fs q, fs q <> None -> fst (run fs matched) q <> None.
Proof.
  induction matched as [|p rest IH]; intros fs q Hq;
    cbn [main_batch_embed]; [exact Hq|].
  destruct (embed fs p) as [[p' fs']|e] eqn:E; [|exact Hq].
  apply IH. now apply (embed_qr_in_image_keeps_files fs fs' p p').
Qed.

(** X14: the batch-embed command is not all or nothing.  When the inputs
    before one are embedded and that one fails, the command stops there
    with its exception, the inputs after it are not looked at, and the
    file system is the one the earlier inputs left: no file that existed
    has disappeared and the output of the input processed last is on
    disk. *)
Theorem main_batch_embed_stops_at_failure
    (fs fs1 : filesystem) (before after : list string) (bad : string)
    (e : exn) :
  run fs before = (fs1, Ok tt) ->
  embed fs1 bad = Raise e ->
  run fs (before ++ bad :: after)%list = (fs1, Raise e)
  /\ (forall q, fs q <> None -> fs1 q <> None)
  /\ (forall earlier last,
        before = (earlier ++ [last])%list ->
        fs1 (out_path last) <> None).
Proof.
  intros Hb He. split; [|split].
  - rewrite main_batch_embed_app, Hb. cbn [main_batch_embed].
    now rewrite He.
  - intros q Hq. pose proof (main_batch_embed_keeps_files before fs q Hq) as H.
    now rewrite Hb in H.
  - intros earlier last ->. rewrite main_batch_embed_app in Hb.
    destruct (run fs earlier) as [fs0 [[]|e0]]; [|discriminate].
    cbn [main_batch_embed] in Hb.
    destruct (embed fs0 last) as [[p fs']|e1] eqn:E; [|discriminate].
    assert (fs' = fs1) by congruence. subst fs'.
    exact (proj1 (embed_qr_in_image_keeps_files fs0 fs1 last p E)).
Qed.

End CliFacts.

(** [main_batch_embed_stops_at_failure] on the stand-ins: [a.png] is an
    image, [b.png] is not; the run stops at [b.png] and [out/a_qr.png]
    is on disk. *)
Lemma main_batch_embed_stops_at_failure_witness :
  let join := fun d n : string => d ++ "/" ++ n in
  let fs : filesystem := fun p =>
    if (p =? "in/a.png")%string then Some (Stub.header 64 64)
    else if (p =? "in/b.png")%string then Some []
    else if (p =? "in/c.png")%string then Some (Stub.header 64 64)
    else None in
  exists fs1,
    @main_batch_embed Stub.collaborators join fs
      ["in/a.png"; "in/b.png"; "in/c.png"] "https://x" "out" 0.5 "center" 0
      "black" "white"
    = (fs1, Raise (Raised "UnidentifiedImageError"
                          "cannot identify image file"))
    /\ fs1 "out/a_qr.png" <> None
    /\ fs1 "out/c_qr.png" = None.
Proof.
  intros join fs.
  exists (fs_write fs "out/a_qr.png" (Stub.header 64 64)).
  destruct (@main_batch_embed_stops_at_failure Stub.collaborators join
              "https://x" "out" 0.5 "center" 0 "black" "white"
              fs (fs_write fs "out/a_qr.png" (Stub.header 64 64))
              ["in/a.png"] ["in/c.png"] "in/b.png"
              (Raised "UnidentifiedImageError" "cannot identify image file")
              ltac:(vm_compute; reflexivity) ltac:(vm_compute; reflexivity))
    as (H1 & _ & H3).
  split; [exact H1|]. split.
  - exact (H3 [] "in/a.png" eq_refl).
  - reflexivity.
Defined.

(** ** The two archives *)

(** X15: /batch/embed and /batch/artistic name their entries by one rule.
    For every upload -- named, unnamed or with an empty name -- both names
    are defined, they are built on the same base, the part of the name
    before its last dot, and they differ only in the suffix, [_qr.png]
    against [_artistic.png]. *)
Theorem batch_archives_share_base (file : UploadFile) :
  exists base,
    batch_embed_out_name file = Ok (base ++ "_qr.png")
    /\ batch_artistic_out_name file = Ok (base ++ "_artistic.png")
    /\ (forall n b e,
          filename file = Some n -> rsplit1 "." n = [b; e] -> base = b)
    /\ (forall n,
          filename file = Some n -> n <> EmptyString ->
          PyStr.contains_char "." n = false -> base = n)
    /\ (filename file = None \/ filename file = Some EmptyString ->
        base = "image").
Proof.
  unfold batch_embed_out_name, batch_artistic_out_name.
  destruct (filename file) as [[|c t]|]; cbn [PyStr.is_empty].
  - exists "image".
    split; [reflexivity|]. split; [reflexivity|]. split; [|split].
    + intros n b e H. inversion H; subst. discriminate.
    + intros n H Hn. inversion H; subst. congruence.
    + reflexivity.
  - set (n := String c t).
    destruct (PyStr.contains_char "." n) eqn:E.
    + destruct (rsplit1_shape "." n) as [(b & e & Hbe) | Hn].
      * rewrite Hbe. exists b.
        split; [reflexivity|]. split; [reflexivity|]. split; [|split].
        -- intros n' b' e' H H'. inversion H; subst n'. congruence.
        -- intros n' H _ H'. inversion H; subst n'. congruence.
        -- intros [H|H]; discriminate.
      * exfalso. revert E Hn. generalize n. clear.
        induction n as [|d u IH]; cbn [PyStr.contains_char rsplit1];
          [discriminate|].
        intros E H.
        destruct (rsplit1_shape "." u) as [(b & e & Hu) | Hu];
          rewrite Hu in H; [discriminate|].
        destruct (Ascii.eqb d ".") eqn:Ed; [discriminate|].
        destruct (Ascii.eqb "." d) eqn:Ed'.
        -- apply Ascii.eqb_eq in Ed'. subst d.
           now rewrite Ascii.eqb_refl in Ed.
        -- apply (IH E Hu).
    + exists n.
      split; [reflexivity|]. split; [reflexivity|]. split; [|split].
      * intros n' b e H H'. inversion H; subst n'.
        apply rsplit1_inv in H' as [H' _].
        rewrite H', contains_char_app in E. discriminate.
      * intros n' H _ _. now inversion H.
      * intros [H|H]; discriminate.
  - exists "image".
    split; [reflexivity|]. split; [reflexivity|]. split; [|split].
    + discriminate.
    + discriminate.
    + reflexivity.
Qed.

(** ** Order of the checks *)

Lemma calculate_position_invalid_message (bg_w bg_h qr_size margin : Z)
    (s : string) :
  (forall a, In a VALID_POSITIONS -> PyStr.lower s <> a) ->
  calculate_position bg_w bg_h qr_size s margin
  = Raise (ValueError
      ("Unsupported position '" ++ PyStr.lower s ++ "'. Use one of: center, top-left, top-right, bottom-left, bottom-right.")).
Proof.
  intros H. unfold calculate_position.
  assert (E : forall a, In a VALID_POSITIONS ->
                        (PyStr.lower s =? a)%string = false).
  { intros a Ha. apply String.eqb_neq. auto. }
  unfold VALID_POSITIONS in E. simpl in E.
  rewrite !E by tauto. reflexivity.
Qed.

(** X16: the renderer validates before it calls the codec.  With data or
    a size the validators refuse, [generate_qr] raises the [ValueError] of
    the first failing validator -- the data is looked at before the size
    -- and the result is the same whatever the collaborators are: the
    codec has no part in it. *)
Theorem generate_qr_validates_first (C1 C2 : Collaborators)
    (data : string) (qr_size border : Z) (fill_color back_color : string) :
  validate_data data <> Ok tt \/ validate_size qr_size <> Ok tt ->
  @generate_qr C1 data qr_size border fill_color back_color
  = @generate_qr C2 data qr_size border fill_color back_color
  /\ @generate_qr C1 data qr_size border fill_color back_color
     = match validate_data data with
       | Raise e => Raise e
       | Ok _ =>
           Raise (ValueError "Size must be between 21 and 4000 pixels.")
       end
  /\ exists m, @generate_qr C1 data qr_size border fill_color back_color
               = Raise (ValueError m).
Proof.
  intros H. unfold generate_qr.
  destruct (validate_data_cases data) as [[_ [m Hm]] | [_ Hd]].
  - rewrite Hm. cbn [bind]. eauto.
  - rewrite Hd. cbn [bind].
    destruct (validate_size_cases qr_size) as [[_ Hs] | [_ Hs]].
    + rewrite Hs. cbn [bind]. eauto.
    + rewrite Hd, Hs in H. destruct H as [H|H]; congruence.
Qed.

Lemma generate_qr_validates_first_witness :
  @generate_qr Stub.collaborators "" 10 4 "black" "white"
  = Raise (ValueError "Data cannot be empty.").
Proof.
  exact (proj1 (proj2
    (@generate_qr_validates_first Stub.collaborators Stub.collaborators
       "" 10 4 "black" "white" ltac:(left; discriminate)))).
Defined.

Section CheckOrder.

Context {C : Collaborators}.

(** X17: /embed checks the position last, after the QR has been
    rendered.  For a background that decodes and a scale in range, a
    position that is none of the five anchors is answered 400 with the
    position message only when the rendering succeeds; when the renderer
    raises, its exception decides the answer -- 400 for a [ValueError],
    500 otherwise -- and the position is not mentioned. *)
Theorem embed_qr_position_checked_last (file : UploadFile) (bg : Image)
    (data : string) (scale : float) (position : string) (margin qr_size : Z)
    (fill_color back_color : string) :
  image_open (content file) = Ok bg ->
  ((0 <? scale)%float && (scale <=? 1)%float) = true ->
  PyNum.int_mul (fst (size bg)) scale = Ok qr_size ->
  (forall a, In a VALID_POSITIONS -> PyStr.lower position <> a) ->
  embed_qr file data scale position margin fill_color back_color
  = match generate_qr data qr_size default_border fill_color back_color with
    | Ok _ =>
        HTTPException 400
          ("Unsupported position '" ++ PyStr.lower position ++ "'. Use one of: center, top-left, top-right, bottom-left, bottom-right.")
    | Raise e =>
        if is_ValueError e then HTTPException 400 (str_exn e)
        else HTTPException 500 "Internal server error"
    end.
Proof.
  intros Hbg Hs Hq Hp.
  unfold embed_qr, embed_qr_try. rewrite Hbg. cbn [bind size].
  destruct (size bg) as [bg_w bg_h]. cbn [fst] in Hq.
  rewrite Hs. cbn [negb bind]. rewrite Hq. cbn [bind].
  destruct (generate_qr data qr_size default_border fill_color back_color)
    as [qr|e]; cbn [bind]; [|reflexivity].
  now rewrite (calculate_position_invalid_message _ _ _ _ _ Hp).
Qed.

End CheckOrder.

(** [embed_qr_position_checked_last] on the stand-ins: with data the codec
    cannot encode, the answer to a wrong position is the refusal of the
    codec, and the position is not mentioned. *)
Lemma embed_qr_position_checked_last_witness :
  @embed_qr Stub.collaborators (Stub.upload "bg.png" 400 300)
            (Stub.str_repeat 1300 "a") 0.25 "middle" 10 "black" "white"
  = HTTPException 400 "Invalid version (was 41, expected 1 to 40)".
Proof.
  rewrite (@embed_qr_position_checked_last Stub.collaborators
             (Stub.upload "bg.png" 400 300)
             (Decoded (Stub.header 400 300) 400 300 "RGB")
             (Stub.str_repeat 1300 "a") 0.25 "middle" 10 100
             "black" "white" eq_refl eq_refl
             ltac:(vm_compute; reflexivity)
             ltac:(intros a Ha E; rewrite <- E in Ha; vm_compute in Ha;
                   repeat (destruct Ha as [Ha|Ha]; [discriminate|]);
                   exact Ha)).
  vm_compute. reflexivity.
Defined.
